(** * Events of the dialogue tracker: data model, dict codec, story codec

    Shallow embedding of [rasa/core/events/__init__.py].

    - Python text ([str]) is a list of Unicode code points ([ustr]).
    - JSON-like Python values ([None], [bool], [int], [str], [list], [dict] with
      [str] keys) are [jval]; a [dict] is an association list that keeps Python's
      insertion order. Numbers are modelled as integers.
    - [time.time()] and [uuid.uuid1()] are the only environment reads; they are
      sequences of readings ([time_time], [uuid1]) indexed by how many reads
      happened so far, threaded by a small state-and-exception monad [M].
    - Collaborators outside this file ([dateutil.parser.parse] on strings,
      [datetime.isoformat], [jsonpickle.encode], the hash of strings, of [None]
      and of tuples, [str] of containers, and the markdown writer) are the
      Section variables below. *)

From Stdlib Require Import List String Ascii ZArith NArith Bool Lia.
Import ListNotations.
Open Scope list_scope.
Set Warnings "-register-all".

(** ** Python text and values *)

Definition ustr := list N.

(** An ASCII literal as Python text. *)
Definition u (s : string) : ustr := map N_of_ascii (list_ascii_of_string s).

Fixpoint ustr_eqb (s t : ustr) : bool :=
  match s, t with
  | [], [] => true
  | c :: s', d :: t' => N.eqb c d && ustr_eqb s' t'
  | _, _ => false
  end.

Inductive jval : Type :=
| JNull
| JBool (b : bool)
| JInt (z : Z)
| JStr (s : ustr)
| JList (l : list jval)
| JDict (d : list (ustr * jval)).

Definition pydict := list (ustr * jval).

Fixpoint dict_lookup {A} (k : ustr) (d : list (ustr * A)) : option A :=
  match d with
  | [] => None
  | (k', v) :: d' => if ustr_eqb k k' then Some v else dict_lookup k d'
  end.

(** [d.get(k, default)] and [d.get(k)] on a [dict]. *)
Definition py_get_default (d : pydict) (k : ustr) (default : jval) : jval :=
  match dict_lookup k d with Some v => v | None => default end.

Definition py_get (d : pydict) (k : ustr) : jval := py_get_default d k JNull.

(** [k in d] *)
Definition py_in (k : ustr) (d : pydict) : bool :=
  match dict_lookup k d with Some _ => true | None => false end.

(** [d[k] = v]: an existing key keeps its position, a new key goes last. *)
Fixpoint dict_set (d : pydict) (k : ustr) (v : jval) : pydict :=
  match d with
  | [] => [(k, v)]
  | (k', v') :: d' =>
      if ustr_eqb k k' then (k', v) :: d' else (k', v') :: dict_set d' k v
  end.

(** [d.update(other)] *)
Definition dict_update (d other : pydict) : pydict :=
  fold_left (fun acc kv => dict_set acc (fst kv) (snd kv)) other d.

(** Python truthiness ([bool(v)]). *)
Definition py_truthy (v : jval) : bool :=
  match v with
  | JNull => false
  | JBool b => b
  | JInt z => negb (Z.eqb z 0)
  | JStr s => match s with [] => false | _ => true end
  | JList l => match l with [] => false | _ => true end
  | JDict d => match d with [] => false | _ => true end
  end.

(** [a or b] *)
Definition py_or (a b : jval) : jval := if py_truthy a then a else b.

(** Numeric value of a [bool] or [int] ([True == 1] in Python). *)
Definition py_num (v : jval) : option Z :=
  match v with
  | JBool b => Some (if b then 1%Z else 0%Z)
  | JInt z => Some z
  | _ => None
  end.

(** Python [==] on values: numbers by value, lists pointwise, dicts as
    key/value maps regardless of order. *)
Fixpoint py_eq (a b : jval) {struct a} : bool :=
  match a, b with
  | JNull, JNull => true
  | JStr s, JStr t => ustr_eqb s t
  | JList l, JList m =>
      (fix go (l m : list jval) : bool :=
         match l, m with
         | [], [] => true
         | x :: l', y :: m' => py_eq x y && go l' m'
         | _, _ => false
         end) l m
  | JDict d, JDict e =>
      Nat.eqb (List.length d) (List.length e) &&
      (fix go (d : list (ustr * jval)) : bool :=
         match d with
         | [] => true
         | (k, v) :: d' =>
             match dict_lookup k e with
             | Some w => py_eq v w
             | None => false
             end && go d'
         end) d
  | _, _ =>
      match py_num a, py_num b with
      | Some x, Some y => Z.eqb x y
      | _, _ => false
      end
  end.

(** ** Decimal rendering of integers *)

Fixpoint dec_aux (fuel : nat) (n : N) (acc : ustr) : ustr :=
  match fuel with
  | O => acc
  | S f =>
      let acc' := (48 + N.modulo n 10)%N :: acc in
      if N.ltb n 10 then acc' else dec_aux f (N.div n 10) acc'
  end.

Definition dec_N (n : N) : ustr := dec_aux (S (N.size_nat n)) n [].

Definition dec_Z (z : Z) : ustr :=
  if Z.ltb z 0 then u "-" ++ dec_N (Z.to_N (- z)) else dec_N (Z.to_N z).

(** ** Exceptions and the monad *)

Inductive exn : Type :=
| ValueError (msg : ustr)
| TypeError
| AttributeError
| KeyError.

Inductive result (A : Type) : Type :=
| Ok (a : A)
| Err (x : exn).
Arguments Ok {A} a.
Arguments Err {A} x.

(** Environment reads done so far: calls of [time.time()] and [uuid.uuid1()]. *)
Record env : Type := mkEnv { clock : nat; uuids : nat }.

Definition M (A : Type) : Type := env -> result A * env.

Definition ret {A} (a : A) : M A := fun s => (Ok a, s).

Definition raise {A} (x : exn) : M A := fun s => (Err x, s).

Definition bind {A B} (m : M A) (k : A -> M B) : M B :=
  fun s =>
    match m s with
    | (Ok a, s') => k a s'
    | (Err x, s') => (Err x, s')
    end.

Definition lift {A} (r : result A) : M A :=
  match r with Ok a => ret a | Err x => raise x end.

Notation "x <- m ;; k" := (bind m (fun x => k))
  (at level 61, m at next level, right associativity).

Definition rbind {A B} (r : result A) (k : A -> result B) : result B :=
  match r with Ok a => k a | Err x => Err x end.

Notation "'let?' x := r 'in' k" := (rbind r (fun x => k))
  (at level 200, x name, r at level 100, k at level 200).

Fixpoint mapM {A B} (f : A -> M B) (l : list A) : M (list B) :=
  match l with
  | [] => ret []
  | x :: l' => y <- f x ;; ys <- mapM f l' ;; ret (y :: ys)
  end.

Fixpoint mapR {A B} (f : A -> result B) (l : list A) : result (list B) :=
  match l with
  | [] => Ok []
  | x :: l' => let? y := f x in let? ys := mapR f l' in Ok (y :: ys)
  end.

(** ** Attribute access, subscripts and iteration on values *)

(** [v.get(k, default)] where [v] need not be a [dict]. *)
Definition py_attr_get (v : jval) (k : ustr) (default : jval) : result jval :=
  match v with
  | JDict d => Ok (py_get_default d k default)
  | _ => Err AttributeError
  end.

(** [v[k]] with a [str] key. *)
Definition py_subscript (v : jval) (k : ustr) : result jval :=
  match v with
  | JDict d => match dict_lookup k d with Some w => Ok w | None => Err KeyError end
  | _ => Err TypeError
  end.

(** [for x in v]: lists by element, dicts by key, strings by character. *)
Definition py_iter (v : jval) : result (list jval) :=
  match v with
  | JList l => Ok l
  | JDict d => Ok (map (fun kv => JStr (fst kv)) d)
  | JStr s => Ok (map (fun c => JStr [c]) s)
  | _ => Err TypeError
  end.

Definition is_none (v : jval) : bool := match v with JNull => true | _ => false end.

(** [utils.remove_none_values]: [{k: v for k, v in obj.items() if v is not None}] *)
Definition remove_none_values (v : jval) : result jval :=
  match v with
  | JDict d => Ok (JDict (filter (fun kv => negb (is_none (snd kv))) d))
  | _ => Err AttributeError
  end.

(** ** [json.dumps] with the default separators [", "] and [": "] *)

Definition hexdig (n : N) : N := if N.ltb n 10 then (48 + n)%N else (87 + n)%N.

Definition hex4 (n : N) : ustr :=
  map (fun i => hexdig (N.land (N.shiftr n (4 * i)) 15)) [3; 2; 1; 0]%N.

(** [\uXXXX] *)
Definition u_escape (n : N) : ustr := [92; 117]%N ++ hex4 n.

(** One character of a JSON string literal; with [ensure_ascii] every character
    outside [' '..'~'] is written as [\uXXXX] (a surrogate pair above the BMP). *)
Definition json_escape_char (ensure_ascii : bool) (c : N) : ustr :=
  if N.eqb c 34 then [92; 34]%N
  else if N.eqb c 92 then [92; 92]%N
  else if N.eqb c 10 then [92; 110]%N
  else if N.eqb c 13 then [92; 114]%N
  else if N.eqb c 9 then [92; 116]%N
  else if N.eqb c 8 then [92; 98]%N
  else if N.eqb c 12 then [92; 102]%N
  else if N.ltb c 32 then u_escape c
  else if ensure_ascii && N.ltb 126 c then
    if N.ltb c 65536 then u_escape c
    else
      let n := (c - 65536)%N in
      u_escape (N.lor 55296 (N.land (N.shiftr n 10) 1023))
        ++ u_escape (N.lor 56320 (N.land n 1023))
  else [c].

Definition json_str (ensure_ascii : bool) (s : ustr) : ustr :=
  [34%N] ++ flat_map (json_escape_char ensure_ascii) s ++ [34%N].

Definition join (sep : ustr) (items : list ustr) : ustr :=
  match items with
  | [] => []
  | x :: xs => x ++ flat_map (fun y => sep ++ y) xs
  end.

Fixpoint json_dumps (ensure_ascii : bool) (v : jval) : ustr :=
  match v with
  | JNull => u "null"
  | JBool true => u "true"
  | JBool false => u "false"
  | JInt z => dec_Z z
  | JStr s => json_str ensure_ascii s
  | JList l =>
      u "[" ++ join (u ", ")
        ((fix go (l : list jval) : list ustr :=
            match l with [] => [] | x :: l' => json_dumps ensure_ascii x :: go l' end) l)
      ++ u "]"
  | JDict d =>
      u "{" ++ join (u ", ")
        ((fix go (d : list (ustr * jval)) : list ustr :=
            match d with
            | [] => []
            | (k, x) :: d' =>
                (json_str ensure_ascii k ++ u ": " ++ json_dumps ensure_ascii x) :: go d'
            end) d)
      ++ u "}"
  end.

(** A [dict] whose keys are arbitrary values, as built by a literal or a
    comprehension in the source before it is handed to [json.dumps]. *)
Definition vdict := list (jval * jval).

(** [d[k] = v] on such a dict; lists and dicts are unhashable. *)
Fixpoint vdict_set (d : vdict) (k v : jval) : result vdict :=
  match k with
  | JList _ | JDict _ => Err TypeError
  | _ =>
      match d with
      | [] => Ok [(k, v)]
      | (k', v') :: d' =>
          if py_eq k k' then Ok ((k', v) :: d')
          else let? d'' := vdict_set d' k v in Ok ((k', v') :: d'')
      end
  end.

(** [json.dumps] turns [None], [bool] and [int] keys into strings. *)
Definition json_key (k : jval) : result ustr :=
  match k with
  | JStr s => Ok s
  | JNull => Ok (u "null")
  | JBool true => Ok (u "true")
  | JBool false => Ok (u "false")
  | JInt z => Ok (dec_Z z)
  | _ => Err TypeError
  end.

Definition json_dumps_vdict (ensure_ascii : bool) (d : vdict) : result ustr :=
  let? kvs := mapR (fun kv => let? k := json_key (fst kv) in Ok (k, snd kv)) d in
  Ok (json_dumps ensure_ascii (JDict kvs)).

(** ** CPython hashes of machine integers *)

Definition hash_modulus : Z := (2 ^ 61 - 1)%Z.

Definition int_hash (z : Z) : Z :=
  let h := if Z.leb 0 z then Z.modulo z hash_modulus
           else (- Z.modulo (- z) hash_modulus)%Z in
  if Z.eqb h (-1) then (-2)%Z else h.

(** ** Event variants *)

Inductive event_class : Type :=
| CUserUttered | CBotUttered | CSlotSet | CRestarted | CUserUtteranceReverted
| CAllSlotsReset | CReminderScheduled | CReminderCancelled | CActionReverted
| CStoryExported | CFollowupAction | CConversationPaused | CConversationResumed
| CActionExecuted | CAgentUttered | CForm | CFormValidation
| CActionExecutionRejected.

Definition event_class_eqb (c d : event_class) : bool :=
  match c, d with
  | CUserUttered, CUserUttered | CBotUttered, CBotUttered | CSlotSet, CSlotSet
  | CRestarted, CRestarted | CUserUtteranceReverted, CUserUtteranceReverted
  | CAllSlotsReset, CAllSlotsReset | CReminderScheduled, CReminderScheduled
  | CReminderCancelled, CReminderCancelled | CActionReverted, CActionReverted
  | CStoryExported, CStoryExported | CFollowupAction, CFollowupAction
  | CConversationPaused, CConversationPaused
  | CConversationResumed, CConversationResumed
  | CActionExecuted, CActionExecuted | CAgentUttered, CAgentUttered
  | CForm, CForm | CFormValidation, CFormValidation
  | CActionExecutionRejected, CActionExecutionRejected => true
  | _, _ => false
  end.

(** The class attribute [type_name]. *)
Definition type_name (c : event_class) : ustr :=
  match c with
  | CUserUttered => u "user"
  | CBotUttered => u "bot"
  | CSlotSet => u "slot"
  | CRestarted => u "restart"
  | CUserUtteranceReverted => u "rewind"
  | CAllSlotsReset => u "reset_slots"
  | CReminderScheduled => u "reminder"
  | CReminderCancelled => u "cancel_reminder"
  | CActionReverted => u "undo"
  | CStoryExported => u "export"
  | CFollowupAction => u "followup"
  | CConversationPaused => u "pause"
  | CConversationResumed => u "resume"
  | CActionExecuted => u "action"
  | CAgentUttered => u "agent"
  | CForm => u "form"
  | CFormValidation => u "form_validation"
  | CActionExecutionRejected => u "action_execution_rejected"
  end.

(** [utils.all_subclasses(Event)]: the subclasses of [Event], in the order the
    module defines them. *)
Definition all_subclasses : list event_class :=
  [CUserUttered; CBotUttered; CSlotSet; CRestarted; CUserUtteranceReverted;
   CAllSlotsReset; CReminderScheduled; CReminderCancelled; CActionReverted;
   CStoryExported; CFollowupAction; CConversationPaused; CConversationResumed;
   CActionExecuted; CAgentUttered; CForm; CFormValidation;
   CActionExecutionRejected].

Section Events.

(** Successive readings of [time.time()] and of [str(uuid.uuid1())]. *)
Variable time_time : nat -> Z.
Variable uuid1 : nat -> ustr.

(** [datetime] objects, [datetime.isoformat()] and [dateutil.parser.parse] on a
    [str]. *)
Variable datetime : Type.
Variable isoformat : datetime -> ustr.
Variable parse_date : ustr -> result datetime.

(** [jsonpickle.encode], [str()] of lists and dicts, and [md_format_message]
    (the markdown reader and writer of the training data). *)
Variable jsonpickle_encode : jval -> ustr.
Variable str_other : jval -> ustr.
Variable md_format_message : jval -> jval -> jval -> result ustr.

(** [json.loads] on a [str]. *)
Variable json_loads : ustr -> result jval.

(** [hash()] of a [str], of [None] and of a tuple given its items' hashes. *)
Variable str_hash : ustr -> Z.
Variable none_hash : Z.
Variable tuple_hash : list Z -> Z.

Definition time_now : M jval :=
  fun s => (Ok (JInt (time_time (clock s))), mkEnv (S (clock s)) (uuids s)).

Definition uuid_now : M ustr :=
  fun s => (Ok (uuid1 (uuids s)), mkEnv (clock s) (S (uuids s))).

(** [parser.parse(v)]: anything but a string is refused with [TypeError]. *)
Definition dateutil_parse (v : jval) : result datetime :=
  match v with JStr s => parse_date s | _ => Err TypeError end.

(** [str(v)] *)
Definition py_str (v : jval) : ustr :=
  match v with
  | JNull => u "None"
  | JBool true => u "True"
  | JBool false => u "False"
  | JInt z => dec_Z z
  | JStr s => s
  | _ => str_other v
  end.

Definition py_hash (v : jval) : result Z :=
  match v with
  | JNull => Ok none_hash
  | JBool b => Ok (if b then 1%Z else 0%Z)
  | JInt z => Ok (int_hash z)
  | JStr s => Ok (str_hash s)
  | _ => Err TypeError
  end.

Definition py_hash_tuple (l : list jval) : result Z :=
  let? hs := mapR py_hash l in Ok (tuple_hash hs).

Inductive payload : Type :=
| UserUttered (text intent entities parse_data input_channel message_id : jval)
| BotUttered (text data : jval)
| SlotSet (key value : jval)
| Restarted
| UserUtteranceReverted
| AllSlotsReset
| ReminderScheduled (action_name : jval) (trigger_date_time : datetime)
    (name : jval) (kill_on_user_message : jval)
| ReminderCancelled (action_name : jval)
| ActionReverted
| StoryExported (path : jval)
| FollowupAction (action_name : jval)
| ConversationPaused
| ConversationResumed
| ActionExecuted (action_name policy confidence : jval)
| AgentUttered (text data : jval)
| Form (name : jval)
| FormValidation (validate : jval)
| ActionExecutionRejected (action_name policy confidence : jval).

(** An event object: its variant with the variant's attributes, and the
    attributes [timestamp] and [_metadata] set by [Event.__init__]. *)
Record event : Type := mkEvent { ev : payload; timestamp : jval; metadata : jval }.

Definition class_of (p : payload) : event_class :=
  match p with
  | UserUttered _ _ _ _ _ _ => CUserUttered
  | BotUttered _ _ => CBotUttered
  | SlotSet _ _ => CSlotSet
  | Restarted => CRestarted
  | UserUtteranceReverted => CUserUtteranceReverted
  | AllSlotsReset => CAllSlotsReset
  | ReminderScheduled _ _ _ _ => CReminderScheduled
  | ReminderCancelled _ => CReminderCancelled
  | ActionReverted => CActionReverted
  | StoryExported _ => CStoryExported
  | FollowupAction _ => CFollowupAction
  | ConversationPaused => CConversationPaused
  | ConversationResumed => CConversationResumed
  | ActionExecuted _ _ _ => CActionExecuted
  | AgentUttered _ _ => CAgentUttered
  | Form _ => CForm
  | FormValidation _ => CFormValidation
  | ActionExecutionRejected _ _ _ => CActionExecutionRejected
  end.

(** ** Construction *)

(** [Event.__init__]: [self.timestamp = timestamp or time.time()] and
    [self._metadata = metadata or {}]. *)
Definition event_init (timestamp metadata : jval) : M (jval * jval) :=
  ts <- (if py_truthy timestamp then ret timestamp else time_now) ;;
  ret (ts, py_or metadata (JDict [])).

Definition mk_event (p : payload) (timestamp metadata : jval) : M event :=
  tm <- event_init timestamp metadata ;;
  ret (mkEvent p (fst tm) (snd tm)).

(** [UserUttered(text, intent, entities, parse_data, timestamp, input_channel,
    message_id, metadata)] *)
Definition new_UserUttered (text intent entities parse_data timestamp
    input_channel message_id metadata : jval) : M event :=
  let intent' := py_or intent (JDict []) in
  let entities' := py_or entities (JList []) in
  tm <- event_init timestamp metadata ;;
  let parse_data' :=
    if py_truthy parse_data then parse_data
    else JDict [(u "intent", intent'); (u "entities", entities'); (u "text", text);
                (u "message_id", message_id); (u "metadata", snd tm)] in
  ret (mkEvent (UserUttered text intent' entities' parse_data' input_channel message_id)
               (fst tm) (snd tm)).

(** [BotUttered(text, data, metadata, timestamp)] *)
Definition new_BotUttered (text data metadata timestamp : jval) : M event :=
  mk_event (BotUttered text (py_or data (JDict []))) timestamp metadata.

(** [SlotSet(key, value, timestamp, metadata)] *)
Definition new_SlotSet (key value timestamp metadata : jval) : M event :=
  mk_event (SlotSet key value) timestamp metadata.

(** [ReminderScheduled(action_name, trigger_date_time, name,
    kill_on_user_message, timestamp, metadata)] *)
Definition new_ReminderScheduled (action_name : jval) (trigger_date_time : datetime)
    (name kill_on_user_message timestamp metadata : jval) : M event :=
  name' <- (if is_none name then (s <- uuid_now ;; ret (JStr s)) else ret name) ;;
  mk_event (ReminderScheduled action_name trigger_date_time name' kill_on_user_message)
    timestamp metadata.

Definition new_ReminderCancelled (action_name timestamp metadata : jval) : M event :=
  mk_event (ReminderCancelled action_name) timestamp metadata.

Definition new_StoryExported (path timestamp metadata : jval) : M event :=
  mk_event (StoryExported path) timestamp metadata.

Definition new_FollowupAction (name timestamp metadata : jval) : M event :=
  mk_event (FollowupAction name) timestamp metadata.

Definition new_ActionExecuted (action_name policy confidence timestamp metadata : jval)
    : M event :=
  mk_event (ActionExecuted action_name policy confidence) timestamp metadata.

Definition new_AgentUttered (text data timestamp metadata : jval) : M event :=
  mk_event (AgentUttered text data) timestamp metadata.

Definition new_Form (name timestamp metadata : jval) : M event :=
  mk_event (Form name) timestamp metadata.

Definition new_FormValidation (validate timestamp metadata : jval) : M event :=
  mk_event (FormValidation validate) timestamp metadata.

Definition new_ActionExecutionRejected (action_name policy confidence timestamp
    metadata : jval) : M event :=
  mk_event (ActionExecutionRejected action_name policy confidence) timestamp metadata.

(** The variants without an [__init__] of their own: [cls(timestamp, metadata)]. *)
Definition new_Restarted := mk_event Restarted.
Definition new_UserUtteranceReverted := mk_event UserUtteranceReverted.
Definition new_AllSlotsReset := mk_event AllSlotsReset.
Definition new_ActionReverted := mk_event ActionReverted.
Definition new_ConversationPaused := mk_event ConversationPaused.
Definition new_ConversationResumed := mk_event ConversationResumed.

(** ** Decoding *)

Definition single (m : M event) : M (option (list event)) :=
  e <- m ;; ret (Some [e]).

(** [cls._from_story_string(parameters)]. The variants that do not override it
    inherit [Event._from_story_string], i.e.
    [[cls(parameters.get("timestamp"), parameters.get("metadata"))]], whose two
    positional arguments land in the first two parameters of [cls.__init__].
    The [except KeyError] around [UserUttered._from_parse_data] never fires:
    every access is a [.get]. *)
Definition from_story_string_cls (c : event_class) (parameters : pydict)
    : M (option (list event)) :=
  let get := py_get parameters in
  let ts := get (u "timestamp") in
  let md := get (u "metadata") in
  match c with
  | CUserUttered =>
      let parse_data := get (u "parse_data") in
      intent <- lift (py_attr_get parse_data (u "intent") JNull) ;;
      entities <- lift (py_attr_get parse_data (u "entities") (JList [])) ;;
      single (new_UserUttered (get (u "text")) intent entities parse_data ts
                (get (u "input_channel")) (get (u "message_id")) md)
  | CBotUttered => single (new_BotUttered ts md JNull JNull)
  | CSlotSet =>
      slots <- mapM (fun kv => new_SlotSet (JStr (fst kv)) (snd kv) JNull JNull)
                 parameters ;;
      ret (match slots with [] => None | _ => Some slots end)
  | CRestarted => single (new_Restarted ts md)
  | CUserUtteranceReverted => single (new_UserUtteranceReverted ts md)
  | CAllSlotsReset => single (new_AllSlotsReset ts md)
  | CReminderScheduled =>
      trigger_date_time <- lift (dateutil_parse (get (u "date_time"))) ;;
      single (new_ReminderScheduled (get (u "action")) trigger_date_time
                (py_get_default parameters (u "name") JNull)
                (py_get_default parameters (u "kill_on_user_msg") (JBool true)) ts md)
  | CReminderCancelled => single (new_ReminderCancelled (get (u "action")) ts md)
  | CActionReverted => single (new_ActionReverted ts md)
  | CStoryExported => single (new_StoryExported (get (u "path")) ts md)
  | CFollowupAction => single (new_FollowupAction (get (u "name")) ts md)
  | CConversationPaused => single (new_ConversationPaused ts md)
  | CConversationResumed => single (new_ConversationResumed ts md)
  | CActionExecuted =>
      single (new_ActionExecuted (get (u "name")) (get (u "policy"))
                (get (u "confidence")) ts md)
  | CAgentUttered => single (new_AgentUttered ts md JNull JNull)
  | CForm => single (new_Form (get (u "name")) ts md)
  | CFormValidation => single (new_FormValidation ts md JNull)
  | CActionExecutionRejected =>
      single (new_ActionExecutionRejected ts md JNull JNull JNull)
  end.

(** [Event._from_parameters]: the first event of [_from_story_string]
    ([len(None)] raises [TypeError]). *)
Definition default_from_parameters (c : event_class) (parameters : pydict)
    : M (option event) :=
  r <- from_story_string_cls c parameters ;;
  match r with
  | None => raise TypeError
  | Some [] => ret None
  | Some (e :: _) => ret (Some e)
  end.

(** [cls._from_parameters(parameters)], with the overrides of [BotUttered],
    [SlotSet], [AgentUttered], [FormValidation] and [ActionExecutionRejected]
    (their [except KeyError] never fires either). *)
Definition from_parameters_cls (c : event_class) (parameters : pydict)
    : M (option event) :=
  let get := py_get parameters in
  let ts := get (u "timestamp") in
  let md := get (u "metadata") in
  match c with
  | CBotUttered =>
      e <- new_BotUttered (get (u "text")) (get (u "data")) md ts ;; ret (Some e)
  | CSlotSet =>
      e <- new_SlotSet (get (u "name")) (get (u "value")) ts md ;; ret (Some e)
  | CAgentUttered =>
      e <- new_AgentUttered (get (u "text")) (get (u "data")) ts md ;; ret (Some e)
  | CFormValidation =>
      e <- new_FormValidation (get (u "validate")) ts md ;; ret (Some e)
  | CActionExecutionRejected =>
      e <- new_ActionExecutionRejected (get (u "name")) (get (u "policy"))
             (get (u "confidence")) ts md ;; ret (Some e)
  | _ => default_from_parameters c parameters
  end.

Definition unknown_event_msg (name : jval) : ustr :=
  u "Unknown event name '" ++ py_str name ++ u "'.".

(** [Event.resolve_by_type(type_name, default)] *)
Definition resolve_by_type (type_name_ : jval) (default : option event_class)
    : result (option event_class) :=
  match find (fun c => py_eq (JStr (type_name c)) type_name_) all_subclasses with
  | Some c => Ok (Some c)
  | None =>
      if py_eq type_name_ (JStr (u "topic")) then Ok None
      else match default with
           | Some d => Ok (Some d)
           | None => Err (ValueError (unknown_event_msg type_name_))
           end
  end.

(** [Event.from_parameters(parameters, default)] *)
Definition from_parameters (parameters : pydict) (default : option event_class)
    : M (option event) :=
  let event_name := py_get parameters (u "event") in
  if is_none event_name then ret None
  else
    c <- lift (resolve_by_type event_name default) ;;
    match c with
    | None => ret None
    | Some c => from_parameters_cls c parameters
    end.

(** [Event.from_story_string(event_name, parameters, default)] *)
Definition from_story_string (event_name : jval) (parameters : pydict)
    (default : option event_class) : M (option (list event)) :=
  c <- lift (resolve_by_type event_name default) ;;
  match c with
  | None => ret None
  | Some c => from_story_string_cls c parameters
  end.

(** [deserialise_events(serialized_events)]: entries without an ["event"] key
    are skipped, entries that decode to [None] are skipped with a warning. *)
Fixpoint deserialise_events (serialized_events : list pydict) : M (list event) :=
  match serialized_events with
  | [] => ret []
  | e :: es =>
      if py_in (u "event") e then
        event <- from_parameters e None ;;
        rest <- deserialise_events es ;;
        ret (match event with Some x => x :: rest | None => rest end)
      else deserialise_events es
  end.

(** ** Encoding *)

(** [Event.as_dict]: ["metadata"] only when it is truthy. *)
Definition base_as_dict (e : event) : pydict :=
  [(u "event", JStr (type_name (class_of (ev e)))); (u "timestamp", timestamp e)]
  ++ (if py_truthy (metadata e) then [(u "metadata", metadata e)] else []).

(** [ReminderScheduled._data_obj] *)
Definition data_obj (action_name : jval) (trigger_date_time : datetime)
    (name kill_on_user_message : jval) : pydict :=
  [(u "action", action_name); (u "date_time", JStr (isoformat trigger_date_time));
   (u "name", name); (u "kill_on_user_msg", kill_on_user_message)].

(** [e.as_dict()] with each variant's override. [ActionExecuted]'s [hasattr]
    guards concern unpickled old objects; every event here has a [policy] and a
    [confidence]. *)
Definition as_dict (e : event) : pydict :=
  let d := base_as_dict e in
  match ev e with
  | UserUttered text _ _ parse_data input_channel message_id =>
      dict_update d [(u "text", text); (u "parse_data", parse_data);
                     (u "input_channel", input_channel); (u "message_id", message_id);
                     (u "metadata", metadata e)]
  | BotUttered text data =>
      dict_update d [(u "text", text); (u "data", data); (u "metadata", metadata e)]
  | SlotSet key value => dict_update d [(u "name", key); (u "value", value)]
  | ReminderScheduled a t n k => dict_update d (data_obj a t n k)
  | FollowupAction a => dict_update d [(u "name", a)]
  | ActionExecuted a p c =>
      dict_update d [(u "name", a); (u "policy", p); (u "confidence", c)]
  | AgentUttered text data => dict_update d [(u "text", text); (u "data", data)]
  | Form name => dict_update d [(u "name", name)]
  | FormValidation validate => dict_update d [(u "validate", validate)]
  | ActionExecutionRejected a p c =>
      dict_update d [(u "name", a); (u "policy", p); (u "confidence", c)]
  | _ => d
  end.

(** [UserUttered.as_story_string(e2e)] *)
Definition user_as_story_string (e2e : bool) (text intent entities : jval)
    : result jval :=
  if py_truthy intent then
    let? ent_string :=
      (if py_truthy entities then
         let? ents := py_iter entities in
         let? d := fold_left
                     (fun acc ent =>
                        let? d := acc in
                        let? k := py_subscript ent (u "entity") in
                        let? v := py_subscript ent (u "value") in
                        vdict_set d k v)
                     ents (Ok []) in
         json_dumps_vdict false d
       else Ok []) in
    let? name := py_attr_get intent (u "name") (JStr []) in
    let parse_string := py_str name ++ ent_string in
    if e2e then
      let? message := md_format_message text intent entities in
      let? name' := py_attr_get intent (u "name") JNull in
      Ok (JStr (py_str name' ++ u ": " ++ message))
    else Ok (JStr parse_string)
  else Ok text.

(** [e.as_story_string()]: the line, or [None] for the variants that have no
    story form. [SlotSet] calls [json.dumps] with [ensure_ascii=False], the
    other keyed variants with the default [ensure_ascii=True]. *)
Definition as_story_string (e : event) : result jval :=
  let tag := type_name (class_of (ev e)) in
  match ev e with
  | UserUttered text intent entities _ _ _ =>
      user_as_story_string false text intent entities
  | SlotSet key value =>
      let? d := vdict_set [] key value in
      let? props := json_dumps_vdict false d in
      Ok (JStr (tag ++ props))
  | ReminderScheduled a t n k =>
      Ok (JStr (tag ++ json_dumps true (JDict (data_obj a t n k))))
  | ReminderCancelled a =>
      Ok (JStr (tag ++ json_dumps true (JDict [(u "action", a)])))
  | FollowupAction a =>
      Ok (JStr (tag ++ json_dumps true (JDict [(u "name", a)])))
  | Form name => Ok (JStr (tag ++ json_dumps true (JDict [(u "name", name)])))
  | ActionExecuted a _ _ => Ok a
  | BotUttered _ _ | AgentUttered _ _ | FormValidation _
  | ActionExecutionRejected _ _ _ => Ok JNull
  | Restarted | UserUtteranceReverted | AllSlotsReset | ActionReverted
  | StoryExported _ | ConversationPaused | ConversationResumed => Ok (JStr tag)
  end.

(** ** Identity: [__eq__] and [__hash__] *)

Definition encode_each (v : jval) : result (list ustr) :=
  let? xs := py_iter v in Ok (map jsonpickle_encode xs).

Fixpoint ustrs_eqb (l m : list ustr) : bool :=
  match l, m with
  | [], [] => true
  | x :: l', y :: m' => ustr_eqb x y && ustrs_eqb l' m'
  | _, _ => false
  end.

(** [(self.text, self.intent.get("name"), [jsonpickle.encode(ent) for ent in
    self.entities])] *)
Definition user_members (text intent entities : jval)
    : result (jval * jval * list ustr) :=
  let? name := py_attr_get intent (u "name") JNull in
  let? ents := encode_each entities in
  Ok (text, name, ents).

(** [BotUttered.__members] *)
Definition bot_members (text data metadata : jval) : result (jval * ustr * ustr) :=
  let? d := remove_none_values data in
  let? m := remove_none_values metadata in
  Ok (text, jsonpickle_encode d, jsonpickle_encode m).

(** [e1 == e2], i.e. [e1.__eq__(e2)]. *)
Definition event_eq (e1 e2 : event) : result bool :=
  let same := event_class_eqb (class_of (ev e1)) (class_of (ev e2)) in
  match ev e1, ev e2 with
  | UserUttered t1 i1 n1 _ _ _, UserUttered t2 i2 n2 _ _ _ =>
      let? m1 := user_members t1 i1 n1 in
      let? m2 := user_members t2 i2 n2 in
      match m1, m2 with
      | (a1, b1, c1), (a2, b2, c2) => Ok (py_eq a1 a2 && py_eq b1 b2 && ustrs_eqb c1 c2)
      end
  | BotUttered t1 d1, BotUttered t2 d2 =>
      let? m1 := bot_members t1 d1 (metadata e1) in
      let? m2 := bot_members t2 d2 (metadata e2) in
      match m1, m2 with
      | (a1, b1, c1), (a2, b2, c2) => Ok (py_eq a1 a2 && ustr_eqb b1 b2 && ustr_eqb c1 c2)
      end
  | SlotSet k1 v1, SlotSet k2 v2 => Ok (py_eq k1 k2 && py_eq v1 v2)
  | ReminderScheduled _ _ n1 _, ReminderScheduled _ _ n2 _ => Ok (py_eq n1 n2)
  | FollowupAction a1, FollowupAction a2 => Ok (py_eq a1 a2)
  | ActionExecuted a1 _ _, ActionExecuted a2 _ _ => Ok (py_eq a1 a2)
  | AgentUttered t1 d1, AgentUttered t2 d2 =>
      Ok (py_eq t1 t2 && ustr_eqb (jsonpickle_encode d1) (jsonpickle_encode d2))
  | Form n1, Form n2 => Ok (py_eq n1 n2)
  | ActionExecutionRejected a1 _ _, ActionExecutionRejected a2 _ _ => Ok (py_eq a1 a2)
  | UserUttered _ _ _ _ _ _, _ | BotUttered _ _, _ | SlotSet _ _, _
  | ReminderScheduled _ _ _ _, _ | FollowupAction _, _ | ActionExecuted _ _ _, _
  | AgentUttered _ _, _ | Form _, _ | ActionExecutionRejected _ _ _, _ => Ok false
  (* [isinstance(other, cls)] only *)
  | _, _ => Ok same
  end.

(** [hash(e)], i.e. [e.__hash__()]. *)
Definition event_hash (e : event) : result Z :=
  match ev e with
  | UserUttered text intent entities _ _ _ =>
      let? name := py_attr_get intent (u "name") JNull in
      py_hash_tuple [text; name; JStr (jsonpickle_encode entities)]
  | BotUttered text data =>
      let? m := bot_members text data (metadata e) in
      match m with
      | (a, b, c) => py_hash_tuple [a; JStr b; JStr c]
      end
  | SlotSet key value => py_hash_tuple [key; JStr (jsonpickle_encode value)]
  | Restarted => py_hash (JInt 32143124312)
  | UserUtteranceReverted => py_hash (JInt 32143124315)
  | AllSlotsReset => py_hash (JInt 32143124316)
  | ReminderScheduled a t n k => py_hash_tuple [a; JStr (isoformat t); k; n]
  | ReminderCancelled a => py_hash a
  | ActionReverted => py_hash (JInt 32143124318)
  | StoryExported _ => py_hash (JInt 32143124319)
  | FollowupAction a => py_hash a
  | ConversationPaused => py_hash (JInt 32143124313)
  | ConversationResumed => py_hash (JInt 32143124314)
  | ActionExecuted a _ _ => py_hash a
  | AgentUttered text data => py_hash_tuple [text; JStr (jsonpickle_encode data)]
  | Form name => py_hash name
  | FormValidation validate => py_hash validate
  | ActionExecutionRejected a _ _ => py_hash a
  end.


(** ** Helpers of the module and [BotUttered.message] *)

(** The [for k, v in d.items()] loop of [first_key]: the first key that is not
    [default_key], [None] when the loop runs out. *)
Fixpoint first_key_loop (items : pydict) (default_key : ustr) : option ustr :=
  match items with
  | [] => None
  | (k, _) :: rest =>
      if negb (ustr_eqb k default_key) then Some k else first_key_loop rest default_key
  end.

(** [first_key(d, default_key)] *)
Definition first_key (d : pydict) (default_key : ustr) : option ustr :=
  if Nat.ltb 1 (List.length d) then first_key_loop d default_key
  else match d with
       | [(k, _)] => Some k
       | _ => None
       end.

Definition is_dict (v : jval) : bool := match v with JDict _ => true | _ => false end.

(** Lists and dicts are unhashable. *)
Definition py_hashable (v : jval) : bool :=
  match v with JList _ | JDict _ => false | _ => true end.

(** [deserialise_entities(entities)]: a [str] is parsed as JSON first, then the
    items that are dicts are kept. *)
Definition deserialise_entities (entities : jval) : result (list jval) :=
  let? entities := match entities with JStr s => json_loads s | _ => Ok entities end in
  let? xs := py_iter entities in
  Ok (filter is_dict xs).

(** [m.get(k)] on a dict with arbitrary keys. *)
Fixpoint vdict_get (d : vdict) (k : jval) : jval :=
  match d with
  | [] => JNull
  | (k', v) :: d' => if py_eq k k' then v else vdict_get d' k
  end.

Definition update_seq_error (i n : nat) : exn :=
  ValueError (u "dictionary update sequence element #" ++ dec_N (N.of_nat i) ++
              u " has length " ++ dec_N (N.of_nat n) ++ u "; 2 is required").

(** [m.update(items)] for an iterable that is not a mapping: element [i] must
    yield exactly a key and a value. *)
Fixpoint vdict_update_pairs (m : vdict) (items : list jval) (i : nat) : result vdict :=
  match items with
  | [] => Ok m
  | x :: rest =>
      let? kv := py_iter x in
      match kv with
      | [k; v] => let? m' := vdict_set m k v in vdict_update_pairs m' rest (S i)
      | _ => Err (update_seq_error i (List.length kv))
      end
  end.

(** [m.update(other)] *)
Definition vdict_update (m : vdict) (other : jval) : result vdict :=
  match other with
  | JDict d =>
      fold_left (fun acc kv => let? m := acc in vdict_set m (JStr (fst kv)) (snd kv))
        d (Ok m)
  | _ => let? items := py_iter other in vdict_update_pairs m items 0
  end.

(** [BotUttered.message()] for a [BotUttered] with attributes [text], [data],
    [timestamp] and [metadata]: [data.copy()] exists for dicts and lists only,
    and a list copy refuses the [str] index of [m["text"]]. *)
Definition bot_message (text data timestamp metadata : jval) : result vdict :=
  let? m := match data with
            | JDict d => Ok (map (fun kv => (JStr (fst kv), snd kv)) d)
            | JList _ => Err TypeError
            | _ => Err AttributeError
            end in
  let? m := vdict_set m (JStr (u "text")) text in
  let? m := vdict_set m (JStr (u "timestamp")) timestamp in
  let? m := vdict_update m metadata in
  if py_eq (vdict_get m (JStr (u "image"))) (vdict_get m (JStr (u "attachment")))
  then vdict_set m (JStr (u "attachment")) JNull
  else Ok m.


(** ** Properties stated over the model *)

(** The timestamp rule of [Event.__init__] for one constructor call. *)
Definition timestamp_rule (m : M event) (ts : jval) : Prop :=
  forall s, exists e s', m s = (Ok e, s') /\
    timestamp e = (if py_truthy ts then ts else JInt (time_time (clock s))).

(** The SlotSet events of a parameter map whose first one is built at clock
    reading [n]. *)
Fixpoint slot_events (p : pydict) (n : nat) : list event :=
  match p with
  | [] => []
  | (k, v) :: p' =>
      mkEvent (SlotSet (JStr k) v) (JInt (time_time n)) (JDict []) :: slot_events p' (S n)
  end.

(** What every constructor establishes about [_metadata]. *)
Definition metadata_ok (e : event) : Prop :=
  py_truthy (metadata e) = true \/ metadata e = JDict [].

(** Per variant, what decoding needs to give the fields back: a [UserUttered]'s
    intent and entities are read back from [parse_data]; a [BotUttered]'s data
    is normalised by [data or {}]; a [ReminderScheduled] always has a name. *)
Definition payload_ok (e : event) : Prop :=
  match ev e with
  | UserUttered _ intent entities parse_data _ _ =>
      exists d, parse_data = JDict d /\
        py_or (py_get d (u "intent")) (JDict []) = intent /\
        py_or (py_get_default d (u "entities") (JList [])) (JList []) = entities
  | BotUttered _ data => py_truthy data = true \/ data = JDict []
  | ReminderScheduled _ _ name _ => is_none name = false
  | _ => True
  end.

(** Decoding the parameter object [p] of a story line under [tag] gives one
    event with the identity of [e]. *)
Definition story_decodes_to (tag : ustr) (p : pydict) (e : event) : Prop :=
  forall s, exists e' s',
    from_story_string (JStr tag) p None s = (Ok (Some [e']), s') /\
    event_eq e e' = event_eq e e.

(** The story line of [e] is its tag, followed for keyed variants by the JSON
    text of an object [p], and decoding [p] under the tag gives [e] back. The
    line syntax of [user] and [action] is read by the story reader, outside this
    module; [bot], [agent], [form_validation] and [action_execution_rejected]
    have no story line. *)
Definition story_line_ok (e : event) : Prop :=
  let tag := type_name (class_of (ev e)) in
  match ev e with
  | SlotSet (JStr k) v =>
      as_story_string e = Ok (JStr (tag ++ json_dumps false (JDict [(k, v)]))) /\
      story_decodes_to tag [(k, v)] e
  | ReminderScheduled a t n k =>
      as_story_string e = Ok (JStr (tag ++ json_dumps true (JDict (data_obj a t n k)))) /\
      story_decodes_to tag (data_obj a t n k) e
  | ReminderCancelled a =>
      as_story_string e = Ok (JStr (tag ++ json_dumps true (JDict [(u "action", a)]))) /\
      story_decodes_to tag [(u "action", a)] e
  | FollowupAction a =>
      as_story_string e = Ok (JStr (tag ++ json_dumps true (JDict [(u "name", a)]))) /\
      story_decodes_to tag [(u "name", a)] e
  | Form n =>
      as_story_string e = Ok (JStr (tag ++ json_dumps true (JDict [(u "name", n)]))) /\
      story_decodes_to tag [(u "name", n)] e
  | Restarted | UserUtteranceReverted | AllSlotsReset | ActionReverted
  | StoryExported _ | ConversationPaused | ConversationResumed =>
      as_story_string e = Ok (JStr tag) /\ story_decodes_to tag [] e
  | _ => True
  end.

(** ** Basic facts *)

Lemma ustr_eqb_refl (s : ustr) : ustr_eqb s s = true.
Proof. induction s as [|c s IH]; simpl; [reflexivity|]. rewrite N.eqb_refl; exact IH. Qed.

Lemma ustr_eqb_eq (s t : ustr) : ustr_eqb s t = true <-> s = t.
Proof.
  split.
  - revert t; induction s as [|c s IH]; intros [|d t]; simpl; try discriminate; auto.
    intros H; apply andb_prop in H as [H1 H2].
    apply N.eqb_eq in H1; subst; f_equal; auto.
  - intros ->; apply ustr_eqb_refl.
Qed.

Lemma event_init_spec (ts md : jval) (s : env) :
  event_init ts md s =
  (Ok (if py_truthy ts then ts else JInt (time_time (clock s)), py_or md (JDict [])),
   if py_truthy ts then s else mkEnv (S (clock s)) (uuids s)).
Proof. unfold event_init, bind, ret, time_now; destruct (py_truthy ts); reflexivity. Qed.

Lemma mk_event_spec (p : payload) (ts md : jval) (s : env) :
  mk_event p ts md s =
  (Ok (mkEvent p (if py_truthy ts then ts else JInt (time_time (clock s)))
         (py_or md (JDict []))),
   if py_truthy ts then s else mkEnv (S (clock s)) (uuids s)).
Proof. unfold mk_event, bind at 1; rewrite event_init_spec; reflexivity. Qed.

Lemma mk_event_timestamp_rule (p : payload) (ts md : jval) :
  timestamp_rule (mk_event p ts md) ts.
Proof. intros s; rewrite mk_event_spec; eauto. Qed.

(** C10 *)

(** Claim C10: every constructor sets [timestamp] to the given value when it is
    truthy and to the current clock reading otherwise, so a timestamp of [0] (or
    [None]) is replaced by [time.time()]; only truthy (non-zero) timestamps are
    kept. *)
Theorem falsy_timestamp_replaced_by_clock :
  (forall text intent entities parse_data ts ic mid md,
      timestamp_rule (new_UserUttered text intent entities parse_data ts ic mid md) ts) /\
  (forall text data md ts, timestamp_rule (new_BotUttered text data md ts) ts) /\
  (forall key value ts md, timestamp_rule (new_SlotSet key value ts md) ts) /\
  (forall ts md, timestamp_rule (new_Restarted ts md) ts) /\
  (forall ts md, timestamp_rule (new_UserUtteranceReverted ts md) ts) /\
  (forall ts md, timestamp_rule (new_AllSlotsReset ts md) ts) /\
  (forall a t n k ts md, timestamp_rule (new_ReminderScheduled a t n k ts md) ts) /\
  (forall a ts md, timestamp_rule (new_ReminderCancelled a ts md) ts) /\
  (forall ts md, timestamp_rule (new_ActionReverted ts md) ts) /\
  (forall path ts md, timestamp_rule (new_StoryExported path ts md) ts) /\
  (forall name ts md, timestamp_rule (new_FollowupAction name ts md) ts) /\
  (forall ts md, timestamp_rule (new_ConversationPaused ts md) ts) /\
  (forall ts md, timestamp_rule (new_ConversationResumed ts md) ts) /\
  (forall a p c ts md, timestamp_rule (new_ActionExecuted a p c ts md) ts) /\
  (forall text data ts md, timestamp_rule (new_AgentUttered text data ts md) ts) /\
  (forall name ts md, timestamp_rule (new_Form name ts md) ts) /\
  (forall v ts md, timestamp_rule (new_FormValidation v ts md) ts) /\
  (forall a p c ts md, timestamp_rule (new_ActionExecutionRejected a p c ts md) ts) /\
  (py_truthy (JInt 0) = false /\ py_truthy JNull = false /\
   forall n, n <> 0%Z -> py_truthy (JInt n) = true).
Proof.
  repeat split; intros; try apply mk_event_timestamp_rule.
  - intros s; unfold new_UserUttered, bind at 1; rewrite event_init_spec.
    unfold ret; eauto.
  - intros s; unfold new_ReminderScheduled, bind at 1.
    destruct (is_none n); unfold uuid_now, ret, bind.
    + rewrite mk_event_spec; simpl; eauto.
    + rewrite mk_event_spec; eauto.
  - simpl; apply Z.eqb_neq in H; rewrite H; reflexivity.
Qed.

(** C6 *)

(** Claim C6: decoding [{"event": "topic"}] gives no event and raises nothing,
    whatever fallback is passed; the story-string decoder does the same. *)
Theorem topic_decodes_to_no_event (default : option event_class) (s : env) :
  from_parameters [(u "event", JStr (u "topic"))] default s = (Ok None, s) /\
  (forall p, from_story_string (JStr (u "topic")) p default s = (Ok None, s)).
Proof. split; [|intros p]; reflexivity. Qed.

(** C7 *)

Lemma mapM_new_SlotSet (p : pydict) (s : env) :
  mapM (fun kv => new_SlotSet (JStr (fst kv)) (snd kv) JNull JNull) p s =
  (Ok (slot_events p (clock s)), mkEnv (List.length p + clock s) (uuids s)).
Proof.
  revert s; induction p as [|[k v] p IH]; intros [c n]; simpl.
  - reflexivity.
  - unfold bind at 1, new_SlotSet; rewrite mk_event_spec; simpl.
    unfold bind; rewrite IH; simpl. rewrite Nat.add_succ_r; reflexivity.
Qed.

(** Claim C7: story parameters under the tag ["slot"] decode to one SlotSet
    per key, in the map's key order (no events, [None], for an empty map); in
    particular [{"a": 1, "b": 2}] gives [SlotSet("a", 1)] then [SlotSet("b", 2)]. *)
Theorem slot_story_one_event_per_key :
  (forall (p : pydict) default s,
     fst (from_story_string (JStr (u "slot")) p default s) =
     Ok (match p with [] => None | _ => Some (slot_events p (clock s)) end) /\
     forall evs, slot_events p (clock s) = evs ->
       map ev evs = map (fun kv => SlotSet (JStr (fst kv)) (snd kv)) p) /\
  (forall default s, exists evs,
     fst (from_story_string (JStr (u "slot"))
            [(u "a", JInt 1); (u "b", JInt 2)] default s) = Ok (Some evs) /\
     map ev evs = [SlotSet (JStr (u "a")) (JInt 1); SlotSet (JStr (u "b")) (JInt 2)]).
Proof.
  assert (Hmap : forall p n, map ev (slot_events p n) =
                            map (fun kv => SlotSet (JStr (fst kv)) (snd kv)) p).
  { induction p as [|[k v] p IH]; intros n; simpl; [reflexivity|]. rewrite IH; reflexivity. }
  assert (Hgen : forall (p : pydict) default s,
     fst (from_story_string (JStr (u "slot")) p default s) =
     Ok (match p with [] => None | _ => Some (slot_events p (clock s)) end)).
  { intros p default s; unfold from_story_string, bind at 1; simpl.
    unfold bind; rewrite mapM_new_SlotSet; simpl.
    destruct p as [|[k v] p]; reflexivity. }
  split.
  - intros p default s; split; [apply Hgen|].
    intros evs <-; apply Hmap.
  - intros default s; eexists; split.
    + rewrite Hgen; reflexivity.
    + apply (Hmap [(u "a", JInt 1); (u "b", JInt 2)]).
Qed.

(** C9 *)

(** Claim C9: [ReminderCancelled] and [FormValidation] compare by type only but
    hash their payload, so equal events can have different hashes:
    [FormValidation(True) == FormValidation(False)] while their hashes are [1]
    and [0]. *)
Theorem equal_events_with_different_hashes :
  (forall a b t1 t2 m1 m2,
     event_eq (mkEvent (ReminderCancelled a) t1 m1) (mkEvent (ReminderCancelled b) t2 m2)
       = Ok true /\
     event_hash (mkEvent (ReminderCancelled a) t1 m1) = py_hash a) /\
  (forall v w t1 t2 m1 m2,
     event_eq (mkEvent (FormValidation v) t1 m1) (mkEvent (FormValidation w) t2 m2)
       = Ok true /\
     event_hash (mkEvent (FormValidation v) t1 m1) = py_hash v) /\
  (forall t1 t2 m1 m2,
     event_eq (mkEvent (FormValidation (JBool true)) t1 m1)
              (mkEvent (FormValidation (JBool false)) t2 m2) = Ok true /\
     event_hash (mkEvent (FormValidation (JBool true)) t1 m1) = Ok 1%Z /\
     event_hash (mkEvent (FormValidation (JBool false)) t2 m2) = Ok 0%Z) /\
  (exists e1 e2, event_eq e1 e2 = Ok true /\ event_hash e1 <> event_hash e2).
Proof.
  split; [intros; split; reflexivity|].
  split; [intros; split; reflexivity|].
  split; [intros; repeat split; reflexivity|].
  exists (mkEvent (FormValidation (JBool true)) JNull JNull),
         (mkEvent (FormValidation (JBool false)) JNull JNull).
  split; [reflexivity|]; vm_compute; intro H; inversion H.
Qed.

(** C4 *)

(** Claim C4 (as amended): [as_dict] has a ["metadata"] key exactly when the
    metadata is non-empty, for every variant except [UserUttered] and
    [BotUttered], whose [as_dict] always sets ["metadata"] (to [{}] when
    empty); where present the value is the metadata itself. *)
Theorem as_dict_metadata_key (e : event) :
  dict_lookup (u "metadata") (as_dict e) =
  match ev e with
  | UserUttered _ _ _ _ _ _ | BotUttered _ _ => Some (metadata e)
  | _ => if py_truthy (metadata e) then Some (metadata e) else None
  end.
Proof. destruct e as [p ts md]; destruct p; simpl; destruct (py_truthy md); reflexivity. Qed.

(** C5 *)

(** Claim C5 (code defect): a resolved variant with a missing required field is
    not reported as a parse error. [{"event": "slot"}] decodes to
    [SlotSet(None, None)]: the [except KeyError] that would re-raise
    [ValueError("Failed to parse set slot event")] never fires because the
    fields are read with [.get]. [{"event": "reminder", "action": "x"}] (no
    ["date_time"]) raises the raw [TypeError] of [parser.parse(None)]. *)
Theorem missing_required_fields_not_rejected (s : env) :
  fst (from_parameters [(u "event", JStr (u "slot"))] None s) =
    Ok (Some (mkEvent (SlotSet JNull JNull) (JInt (time_time (clock s))) (JDict []))) /\
  fst (from_parameters [(u "event", JStr (u "reminder")); (u "action", JStr (u "x"))]
         None s) = Err TypeError.
Proof. split; reflexivity. Qed.

(** C3 *)

Lemma py_eq_str (a b : ustr) : py_eq (JStr a) (JStr b) = ustr_eqb a b.
Proof. reflexivity. Qed.

Lemma resolve_unregistered (t : ustr) (default : option event_class) :
  ~ In t (map type_name all_subclasses) -> t <> u "topic" ->
  resolve_by_type (JStr t) default =
  match default with
  | Some d => Ok (Some d)
  | None => Err (ValueError (unknown_event_msg (JStr t)))
  end.
Proof.
  intros Hin Htopic; unfold resolve_by_type.
  destruct (find _ all_subclasses) as [c|] eqn:Hf.
  - apply find_some in Hf as [Hc Heq].
    rewrite py_eq_str, ustr_eqb_eq in Heq.
    exfalso; apply Hin; rewrite <- Heq; apply in_map; exact Hc.
  - rewrite py_eq_str.
    destruct (ustr_eqb t (u "topic")) eqn:E; [apply ustr_eqb_eq in E; contradiction|].
    reflexivity.
Qed.

(** Claim C3 (as amended): for a tag naming no variant (and not ["topic"]),
    decoding without a fallback raises the [ValueError] "Unknown event name";
    with a fallback class it hands the dict to that class's own
    [_from_parameters], which yields an instance of the fallback for every
    fallback except [UserUttered] and [ReminderScheduled]. Those two have
    required fields ([parse_data], [date_time]): when the dict lacks them, the
    fallback's decoder fails and no event is produced. *)
Theorem unknown_tag_raises_or_uses_fallback (t : ustr) (p : pydict) (s : env) :
  ~ In t (map type_name all_subclasses) -> t <> u "topic" ->
  py_get p (u "event") = JStr t ->
  from_parameters p None s = (Err (ValueError (unknown_event_msg (JStr t))), s) /\
  (forall c, from_parameters p (Some c) s = from_parameters_cls c p s) /\
  (forall c, c <> CUserUttered -> c <> CReminderScheduled ->
     exists e s', from_parameters p (Some c) s = (Ok (Some e), s') /\ class_of (ev e) = c) /\
  (py_get p (u "parse_data") = JNull ->
     exists x, from_parameters p (Some CUserUttered) s = (Err x, s)) /\
  (py_get p (u "date_time") = JNull ->
     exists x, from_parameters p (Some CReminderScheduled) s = (Err x, s)).
Proof.
  intros Hin Htopic Hev.
  assert (Hfp : forall d, from_parameters p d s =
            bind (lift (resolve_by_type (JStr t) d))
                 (fun c => match c with None => ret None
                                   | Some c => from_parameters_cls c p end) s).
  { intros d; unfold from_parameters; rewrite Hev; reflexivity. }
  split; [|split; [|split; [|split]]].
  - rewrite Hfp, resolve_unregistered by assumption; reflexivity.
  - intros c; rewrite Hfp, resolve_unregistered by assumption; reflexivity.
  - intros c H1 H2; rewrite Hfp, resolve_unregistered by assumption.
    unfold lift, bind at 1, ret at 1.
    destruct c; try congruence;
      unfold from_parameters_cls, default_from_parameters, from_story_string_cls,
        single, new_BotUttered, new_SlotSet, new_AgentUttered, new_FormValidation,
        new_ActionExecutionRejected, new_Restarted, new_UserUtteranceReverted,
        new_AllSlotsReset, new_ReminderCancelled, new_ActionReverted,
        new_StoryExported, new_FollowupAction, new_ConversationPaused,
        new_ConversationResumed, new_ActionExecuted, new_Form;
      unfold bind; rewrite ?mk_event_spec; unfold ret; eauto.
  - intros Hpd; rewrite Hfp, resolve_unregistered by assumption.
    unfold lift, bind, ret, raise, from_parameters_cls, default_from_parameters,
      from_story_string_cls; cbv beta iota zeta; rewrite Hpd; cbn.
    eexists; reflexivity.
  - intros Hdt; rewrite Hfp, resolve_unregistered by assumption.
    unfold lift, bind, ret, raise, from_parameters_cls, default_from_parameters,
      from_story_string_cls; cbv beta iota zeta; rewrite Hdt; cbn.
    eexists; reflexivity.
Qed.

(** C1 *)

Lemma deserialise_events_skip (e : pydict) :
  (py_in (u "event") e = false \/ forall s, from_parameters e None s = (Ok None, s)) ->
  forall es1 es2 s,
    deserialise_events (es1 ++ e :: es2) s = deserialise_events (es1 ++ es2) s.
Proof.
  intros He es1; induction es1 as [|x es1 IH]; intros es2 s; simpl.
  - destruct He as [He|He].
    + rewrite He; reflexivity.
    + destruct (py_in (u "event") e); [|reflexivity].
      unfold bind at 1; rewrite He; unfold bind, ret.
      destruct (deserialise_events es2 s) as [[?|?] ?]; reflexivity.
  - destruct (py_in (u "event") x); [|apply IH].
    unfold bind at 1 3; destruct (from_parameters x None s) as [[a|y] s']; [|reflexivity].
    unfold bind; rewrite IH; reflexivity.
Qed.

Lemma deserialise_events_abort (e : pydict) (x : exn) :
  py_in (u "event") e = true ->
  (forall s, fst (from_parameters e None s) = Err x) ->
  forall es1 es2 s, exists y s', deserialise_events (es1 ++ e :: es2) s = (Err y, s').
Proof.
  intros Hin He es1; induction es1 as [|z es1 IH]; intros es2 s; simpl.
  - rewrite Hin; unfold bind at 1.
    specialize (He s); destruct (from_parameters e None s) as [[a|y] s']; simpl in He;
      [discriminate|eauto].
  - destruct (py_in (u "event") z); [|apply IH].
    unfold bind at 1; destruct (from_parameters z None s) as [[a|y] s']; [|eauto].
    unfold bind; destruct (IH es2 s') as (y & s'' & ->); eauto.
Qed.

Lemma py_get_in (e : pydict) (k : ustr) (v : jval) :
  is_none v = false -> py_get e k = v -> py_in k e = true.
Proof.
  unfold py_get, py_get_default, py_in; destruct (dict_lookup k e); [reflexivity|].
  intros H <-; discriminate.
Qed.

(** Claim C1 (as amended): [deserialise_events] skips entries without an
    ["event"] key and drops entries that decode to no event (the legacy
    ["topic"] tag); the others decode in order. It has no per-entry error
    handling: an entry whose tag names no variant raises and aborts the whole
    batch. Without the middle entry the batch of the claim decodes to the two
    SlotSet events. *)
Theorem deserialise_events_drops_empty_aborts_on_unknown :
  (forall e es1 es2 s, py_get e (u "event") = JStr (u "topic") ->
     deserialise_events (es1 ++ e :: es2) s = deserialise_events (es1 ++ es2) s) /\
  (forall e es1 es2 s, py_in (u "event") e = false ->
     deserialise_events (es1 ++ e :: es2) s = deserialise_events (es1 ++ es2) s) /\
  (forall t e es1 es2 s,
     ~ In t (map type_name all_subclasses) -> t <> u "topic" ->
     py_get e (u "event") = JStr t ->
     exists x s', deserialise_events (es1 ++ e :: es2) s = (Err x, s')) /\
  (forall s, exists evs,
     fst (deserialise_events
            [[(u "event", JStr (u "slot")); (u "name", JStr (u "a")); (u "value", JInt 1)];
             [(u "event", JStr (u "slot")); (u "name", JStr (u "b")); (u "value", JInt 2)]] s)
       = Ok evs /\
     map ev evs = [SlotSet (JStr (u "a")) (JInt 1); SlotSet (JStr (u "b")) (JInt 2)]).
Proof.
  split; [|split; [|split]].
  - intros e es1 es2 s He. apply deserialise_events_skip; right; intros s'.
    unfold from_parameters; rewrite He; reflexivity.
  - intros e es1 es2 s He; apply deserialise_events_skip; left; exact He.
  - intros t e es1 es2 s Hin Htopic He.
    apply (deserialise_events_abort e (ValueError (unknown_event_msg (JStr t))));
      [apply (py_get_in e _ (JStr t)); auto|].
    intros s'; unfold from_parameters; rewrite He; simpl is_none; cbv iota.
    unfold bind; rewrite resolve_unregistered by assumption; reflexivity.
  - intros s; eexists; split; reflexivity.
Qed.

(** C8 *)

Ltac ascii_list := repeat (apply Forall_cons; [lia|]); apply Forall_nil.

Lemma u_escape_ascii (n : N) : Forall (fun d => (d < 127)%N) (u_escape n).
Proof.
  assert (Hd : forall x, (hexdig (N.land x 15) < 127)%N).
  { intros x. change 15%N with (N.ones 4). rewrite N.land_ones.
    assert (H : (x mod 2 ^ 4 < 2 ^ 4)%N) by (apply N.mod_lt; discriminate).
    revert H; generalize (x mod 2 ^ 4)%N; intros y Hy; change (2 ^ 4)%N with 16%N in Hy.
    unfold hexdig; destruct (N.ltb_spec y 10); lia. }
  unfold u_escape, hex4; simpl.
  repeat (apply Forall_cons; [try lia; apply Hd|]); apply Forall_nil.
Qed.

(** Claim C8 (as amended): the story line of each keyed variant is its tag
    followed by a JSON object, but only [slot] disables ASCII escaping:
    [SlotSet] dumps [{key: value}] with [ensure_ascii=False] (a non-ASCII
    character is written as itself), while [reminder], [cancel_reminder] and
    [followup] use [json.dumps]'s default [ensure_ascii=True], whose output is
    pure ASCII (non-ASCII characters become [\uXXXX] escapes). *)
Theorem keyed_story_string_escaping :
  (forall k v t m, as_story_string (mkEvent (SlotSet k v) t m) =
     let? ks := json_key k in Ok (JStr (u "slot" ++ json_dumps false (JDict [(ks, v)])))) /\
  (forall a dt n k t m, as_story_string (mkEvent (ReminderScheduled a dt n k) t m) =
     Ok (JStr (u "reminder" ++ json_dumps true (JDict (data_obj a dt n k))))) /\
  (forall a t m, as_story_string (mkEvent (ReminderCancelled a) t m) =
     Ok (JStr (u "cancel_reminder" ++ json_dumps true (JDict [(u "action", a)])))) /\
  (forall a t m, as_story_string (mkEvent (FollowupAction a) t m) =
     Ok (JStr (u "followup" ++ json_dumps true (JDict [(u "name", a)])))) /\
  (forall c, (126 < c)%N -> json_escape_char false c = [c]) /\
  (forall c, Forall (fun d => (d < 127)%N) (json_escape_char true c)).
Proof.
  split; [|split; [|split; [|split; [|split]]]]; try reflexivity.
  - intros k v t m; destruct k as [| [] | | | |]; reflexivity.
  - intros c Hc; unfold json_escape_char.
    destruct (N.eqb_spec c 34); [lia|]; destruct (N.eqb_spec c 92); [lia|];
    destruct (N.eqb_spec c 10); [lia|]; destruct (N.eqb_spec c 13); [lia|];
    destruct (N.eqb_spec c 9); [lia|]; destruct (N.eqb_spec c 8); [lia|];
    destruct (N.eqb_spec c 12); [lia|]; destruct (N.ltb_spec c 32); [lia|].
    reflexivity.
  - intros c; unfold json_escape_char.
    destruct (N.eqb_spec c 34); [ascii_list|]; destruct (N.eqb_spec c 92); [ascii_list|];
    destruct (N.eqb_spec c 10); [ascii_list|]; destruct (N.eqb_spec c 13); [ascii_list|];
    destruct (N.eqb_spec c 9); [ascii_list|]; destruct (N.eqb_spec c 8); [ascii_list|];
    destruct (N.eqb_spec c 12); [ascii_list|];
    destruct (N.ltb_spec c 32); [apply u_escape_ascii|].
    destruct (N.ltb_spec 126 c); cbv [andb].
    + destruct (N.ltb_spec c 65536); [apply u_escape_ascii|].
      apply Forall_app; split; apply u_escape_ascii.
    + ascii_list.
Qed.

(** C2 *)

Lemma resolve_registered (c : event_class) (default : option event_class) :
  resolve_by_type (JStr (type_name c)) default = Ok (Some c).
Proof. destruct c; reflexivity. Qed.

Lemma py_or_ok (v d : jval) : py_truthy v = true \/ v = d -> py_or v d = v.
Proof. unfold py_or; intros [H | ->]; [rewrite H|destruct (py_truthy d)]; reflexivity. Qed.

Lemma dict_roundtrip (Hparse : forall t, exists t', parse_date (isoformat t) = Ok t')
    (e : event) (s : env) :
  metadata_ok e -> payload_ok e ->
  exists e' s', from_parameters (as_dict e) None s = (Ok (Some e'), s') /\
    event_eq e e' = event_eq e e.
Proof.
  destruct e as [p ts md]; unfold metadata_ok, payload_ok; cbn [ev metadata timestamp].
  intros Hmd Hp.
  destruct p; cbn [ev] in Hp;
    try (destruct Hp as (d & -> & Hi & Hn));
    try (destruct (Hparse trigger_date_time) as [t' Ht]);
    destruct Hmd as [Hmd | ->];
    unfold from_parameters, as_dict, base_as_dict; cbn [ev metadata timestamp];
    try rewrite Hmd; cbn.
  all: unfold default_from_parameters, from_story_string_cls, single,
         new_UserUttered, new_BotUttered, new_SlotSet, new_ReminderScheduled,
         new_ReminderCancelled, new_StoryExported, new_FollowupAction, new_ActionExecuted,
         new_AgentUttered, new_Form, new_FormValidation, new_ActionExecutionRejected,
         new_Restarted, new_UserUtteranceReverted, new_AllSlotsReset,
         new_ActionReverted, new_ConversationPaused, new_ConversationResumed,
         dateutil_parse, lift, bind, ret, raise.
  all: cbn -[mk_event event_init].
  all: try rewrite Ht; try match goal with H : is_none _ = false |- _ => rewrite H end; cbn -[mk_event event_init].
  all: try rewrite mk_event_spec; try rewrite event_init_spec; cbn.
  all: try (unfold py_get in Hi; cbn in Hi, Hn; rewrite Hi, Hn).
  all: destruct (py_truthy ts); eexists; eexists; (split; [reflexivity|]); cbn.
  all: try reflexivity.
  all: rewrite (py_or_ok data) by exact Hp; try rewrite (py_or_ok md) by (left; exact Hmd);
    reflexivity.
Qed.

Lemma story_roundtrip (Hparse : forall t, exists t', parse_date (isoformat t) = Ok t')
    (e : event) : payload_ok e -> story_line_ok e.
Proof.
  destruct e as [p ts md]; unfold payload_ok, story_line_ok; cbn [ev].
  intros Hp.
  destruct p; cbn zeta; try exact I; try (destruct key; try exact I);
    try destruct (Hparse trigger_date_time) as [t' Ht];
    (split; [reflexivity|]); intros st; unfold from_story_string, lift, bind at 1;
    rewrite resolve_registered;
    unfold from_story_string_cls, single,
         new_SlotSet, new_ReminderScheduled,
         new_ReminderCancelled, new_StoryExported, new_FollowupAction,
         new_Form, new_Restarted, new_UserUtteranceReverted, new_AllSlotsReset,
         new_ActionReverted, new_ConversationPaused, new_ConversationResumed,
         dateutil_parse, mapM, lift, bind, ret, raise;
    cbn -[mk_event].
  all: try rewrite Ht; try match goal with H : is_none _ = false |- _ => rewrite H end;
    cbn -[mk_event].
  all: rewrite mk_event_spec; cbn.
  all: eexists; eexists; split; reflexivity.
Qed.
Lemma py_or_idem (a d : jval) : py_or (py_or a d) d = py_or a d.
Proof. unfold py_or; destruct (py_truthy a) eqn:H; [rewrite H|destruct (py_truthy d)]; reflexivity. Qed.

Lemma py_or_empty_dict_ok (md : jval) :
  py_truthy (py_or md (JDict [])) = true \/ py_or md (JDict []) = JDict [].
Proof. unfold py_or; destruct (py_truthy md) eqn:H; [left; exact H | right; reflexivity]. Qed.

(** A [UserUttered] built without [parse_data] gets one that carries its
    intent and entities. *)
Lemma new_UserUttered_defaulted_ok (text intent entities parse_data ts ic mid md : jval)
    (s : env) :
  py_truthy parse_data = false ->
  exists e s', new_UserUttered text intent entities parse_data ts ic mid md s = (Ok e, s') /\
    metadata_ok e /\ payload_ok e.
Proof.
  intros Hpd; unfold new_UserUttered, bind at 1; rewrite event_init_spec, Hpd.
  do 2 eexists; split; [reflexivity|]; split.
  - apply py_or_empty_dict_ok.
  - eexists; split; [reflexivity|]; cbn; split; apply py_or_idem.
Qed.

(** Claim C2 (as the code has it): given that [dateutil] parses back what
    [isoformat] writes, every event satisfying the constructor invariants
    [metadata_ok] and [payload_ok] decodes from [as_dict] to an event equal to
    it under its own [__eq__], and every variant with a story line of its own
    gets it back from the parameter object of that line; a [UserUttered] built
    without [parse_data] satisfies the invariants. *)
Theorem codec_round_trip_under_invariants
    (Hparse : forall t, exists t', parse_date (isoformat t) = Ok t') :
  (forall (e : event) (s : env), metadata_ok e -> payload_ok e ->
     exists e' s', from_parameters (as_dict e) None s = (Ok (Some e'), s') /\
       event_eq e e' = event_eq e e) /\
  (forall e : event, payload_ok e -> story_line_ok e) /\
  (forall text intent entities parse_data ts ic mid md s,
     py_truthy parse_data = false ->
     exists e s', new_UserUttered text intent entities parse_data ts ic mid md s = (Ok e, s') /\
       metadata_ok e /\ payload_ok e).
Proof.
  split; [|split].
  - intros e s; apply (dict_roundtrip Hparse).
  - apply (story_roundtrip Hparse).
  - intros; apply new_UserUttered_defaulted_ok; assumption.
Qed.


(** ** Further properties of the module *)

Lemma first_key_loop_none (d : pydict) (dk : ustr) :
  first_key_loop d dk = None -> Forall (fun k => k = dk) (map fst d).
Proof.
  induction d as [|[k v] d IH]; simpl; [constructor|].
  destruct (ustr_eqb k dk) eqn:E; simpl; [|discriminate].
  intros H; constructor; [apply ustr_eqb_eq; exact E | auto].
Qed.

Lemma first_key_loop_some (d : pydict) (dk k : ustr) :
  first_key_loop d dk = Some k -> k <> dk /\ In k (map fst d).
Proof.
  induction d as [|[k' v] d IH]; simpl; [discriminate|].
  destruct (ustr_eqb k' dk) eqn:E; simpl.
  - intros H; destruct (IH H); auto.
  - intros [= <-]; split; [|left; reflexivity].
    intros ->; rewrite ustr_eqb_refl in E; discriminate.
Qed.

Lemma nodup_all_equal {A} (l : list A) (x : A) :
  NoDup l -> Forall (fun k => k = x) l -> List.length l <= 1.
Proof.
  destruct l as [|a [|b l]]; simpl; try lia.
  intros Hn Hf; inversion Hf as [|? ? Ha Hf']; inversion Hf' as [|? ? Hb _]; subst.
  inversion Hn as [|? ? Hnin _]; exfalso; apply Hnin; left; reflexivity.
Qed.

(** X4: [first_key] on a dict (distinct keys): [None] exactly for the empty dict;
    otherwise one of its keys, and [default_key] only when it is the dict's sole
    key. *)
Theorem first_key_result (d : pydict) (default_key : ustr) :
  NoDup (map fst d) ->
  (first_key d default_key = None <-> d = []) /\
  (forall k, first_key d default_key = Some k ->
     In k (map fst d) /\ (k = default_key -> exists v, d = [(default_key, v)])).
Proof.
  intros Hnd; unfold first_key.
  destruct (Nat.ltb_spec 1 (List.length d)) as [Hlt|Hle].
  - split.
    + split; [|intros ->; simpl in Hlt; lia].
      intros Hn; apply first_key_loop_none in Hn.
      apply nodup_all_equal in Hn; [|exact Hnd]. rewrite length_map in Hn; lia.
    + intros k Hk; apply first_key_loop_some in Hk as [Hne Hin]; split; [exact Hin|].
      intros Heq; contradiction.
  - destruct d as [|[k v] [|kv d]]; simpl in *; try lia.
    + split; [split; reflexivity|intros k H; discriminate].
    + split; [split; discriminate|].
      intros k' [= <-]; split; [left; reflexivity|intros ->; exists v; reflexivity].
Qed.

Lemma filter_all_true {A} (f : A -> bool) (l : list A) :
  Forall (fun x => f x = true) l -> filter f l = l.
Proof. induction 1 as [|x l Hx _ IH]; simpl; [|rewrite Hx, IH]; reflexivity. Qed.

Lemma filter_is_dict_forall (l : list jval) : Forall (fun x => is_dict x = true) (filter is_dict l).
Proof. apply Forall_forall; intros x Hx; apply filter_In in Hx; apply Hx. Qed.

(** X3: [deserialise_entities] keeps the dict items of a list in order and drops the
    others; its result holds dicts only and is returned unchanged when
    deserialised again; [None] is refused with [TypeError] and a dict (which
    iterates over its keys) gives []. *)
Theorem deserialise_entities_keeps_dicts :
  (forall l, deserialise_entities (JList l) = Ok (filter is_dict l)) /\
  (forall v xs, deserialise_entities v = Ok xs ->
     Forall (fun x => is_dict x = true) xs /\ deserialise_entities (JList xs) = Ok xs) /\
  deserialise_entities JNull = Err TypeError /\
  (forall d, deserialise_entities (JDict d) = Ok []).
Proof.
  split; [reflexivity|split; [|split; [reflexivity|]]].
  - intros v xs H.
    assert (Hf : Forall (fun x => is_dict x = true) xs).
    { unfold deserialise_entities in H.
      destruct (match v with JStr s => json_loads s | _ => Ok v end) as [w|] ; [|discriminate].
      cbn [rbind] in H; destruct (py_iter w) as [ys|]; [|discriminate].
      injection H as <-; apply filter_is_dict_forall. }
    split; [exact Hf|]. cbn; rewrite filter_all_true by exact Hf; reflexivity.
  - intros d; cbn; f_equal; induction d as [|[k v] d IH]; [reflexivity|exact IH].
Qed.

Lemma py_eq_hashable_refl (k : jval) : py_hashable k = true -> py_eq k k = true.
Proof.
  destruct k; try discriminate; intros _; cbn; try reflexivity.
  - destruct b; reflexivity.
  - apply Z.eqb_refl.
  - apply ustr_eqb_refl.
Qed.

Lemma vdict_set_hashable (d : vdict) (k v : jval) :
  py_hashable k = true ->
  vdict_set d k v =
  match d with
  | [] => Ok [(k, v)]
  | (k', v') :: d' =>
      if py_eq k k' then Ok ((k', v) :: d')
      else let? d'' := vdict_set d' k v in Ok ((k', v') :: d'')
  end.
Proof. destruct k; try discriminate; destruct d; reflexivity. Qed.

Lemma vdict_set_get (d d' : vdict) (k v : jval) :
  vdict_set d k v = Ok d' -> vdict_get d' k = v.
Proof.
  destruct (py_hashable k) eqn:Hk.
  2: { destruct k; try discriminate; intros H; destruct d as [|[]]; discriminate H. }
  revert d'; induction d as [|[k' v'] d IH]; intros d' H;
    rewrite vdict_set_hashable in H by exact Hk.
  - injection H as <-; cbn; rewrite py_eq_hashable_refl by exact Hk; reflexivity.
  - destruct (py_eq k k') eqn:E.
    + injection H as <-; cbn; rewrite E; reflexivity.
    + destruct (vdict_set d k v) as [d''|] eqn:Hs; [|discriminate].
      injection H as <-; cbn; rewrite E; apply IH; reflexivity.
Qed.

(** X13: The message of a [BotUttered] never holds an [attachment] equal to its
    [image], unless the attachment is [None]: when the two are equal (also when
    both are missing) the attachment is set to [None]. *)
Theorem bot_message_attachment_not_image (text data timestamp metadata : jval) (m : vdict) :
  bot_message text data timestamp metadata = Ok m ->
  py_eq (vdict_get m (JStr (u "image"))) (vdict_get m (JStr (u "attachment"))) = false \/
  vdict_get m (JStr (u "attachment")) = JNull.
Proof.
  unfold bot_message.
  destruct (match data with JDict d => _ | JList _ => _ | _ => _ end) as [m0|]; [|discriminate].
  cbn [rbind]; destruct (vdict_set m0 _ text) as [m1|]; [|discriminate].
  cbn [rbind]; destruct (vdict_set m1 _ timestamp) as [m2|]; [|discriminate].
  cbn [rbind]; destruct (vdict_update m2 metadata) as [m3|]; [|discriminate].
  cbn [rbind]; destruct (py_eq _ _) eqn:E.
  - intros H; right; exact (vdict_set_get _ _ _ _ H).
  - intros [= <-]; left; exact E.
Qed.

Lemma py_hash_respects_py_eq (a b : jval) : py_eq a b = true -> py_hash a = py_hash b.
Proof.
  destruct a as [|b1|z1|s1|l1|d1], b as [|b2|z2|s2|l2|d2]; cbn; intros H;
    try discriminate; try reflexivity.
  - destruct b1, b2; try discriminate; reflexivity.
  - apply Z.eqb_eq in H; destruct b1; subst; reflexivity.
  - apply Z.eqb_eq in H; destruct b2; subst; reflexivity.
  - apply Z.eqb_eq in H; subst; reflexivity.
  - apply ustr_eqb_eq in H; subst; reflexivity.
Qed.

Lemma py_hash_tuple_respects (a1 a2 : jval) (l : list jval) :
  py_hash a1 = py_hash a2 -> py_hash_tuple (a1 :: l) = py_hash_tuple (a2 :: l).
Proof. intros H; unfold py_hash_tuple; cbn [mapR]; rewrite H; reflexivity. Qed.

(** Closes a goal whose hypothesis [Hc] says that a class which is listed is not in the list. *)
Ltac excluded_class Hc :=
  solve [exfalso; apply Hc; repeat (solve [left; reflexivity] || right)].

(** X17: [e1 == e2] implies [hash(e1) == hash(e2)] for every variant except
    [UserUttered], [SlotSet], [ReminderScheduled], [ReminderCancelled] and
    [FormValidation]. *)
Theorem equal_events_equal_hashes (e1 e2 : event) :
  ~ In (class_of (ev e1))
      [CUserUttered; CSlotSet; CReminderScheduled; CReminderCancelled; CFormValidation] ->
  event_eq e1 e2 = Ok true -> event_hash e1 = event_hash e2.
Proof.
  destruct e1 as [p1 ts1 md1], e2 as [p2 ts2 md2]; cbn [ev metadata].
  intros Hc; destruct p1; cbn in Hc;
    try excluded_class Hc; destruct p2; unfold event_eq, event_hash;
    cbn [ev metadata class_of event_class_eqb]; intros Heq; try discriminate Heq;
    try reflexivity.
  - destruct (bot_members text data md1) as [[[a1 b1] c1]|] eqn:E1; [|discriminate].
    cbn [rbind] in Heq |- *.
    destruct (bot_members text0 data0 md2) as [[[a2 b2] c2]|] eqn:E2; [|discriminate].
    cbn [rbind] in Heq |- *; injection Heq as Heq.
    apply andb_prop in Heq as [Heq Hc2]; apply andb_prop in Heq as [Ha Hb].
    apply ustr_eqb_eq in Hb, Hc2; subst.
    apply py_hash_tuple_respects, py_hash_respects_py_eq, Ha.
  - injection Heq as Heq; apply py_hash_respects_py_eq, Heq.
  - injection Heq as Heq; apply py_hash_respects_py_eq, Heq.
  - injection Heq as Heq; apply andb_prop in Heq as [Ha Hb]; apply ustr_eqb_eq in Hb.
    rewrite Hb; apply py_hash_tuple_respects, py_hash_respects_py_eq, Ha.
  - injection Heq as Heq; apply py_hash_respects_py_eq, Heq.
  - injection Heq as Heq; apply py_hash_respects_py_eq, Heq.
Qed.

Lemma filter_idem {A} (f : A -> bool) (l : list A) : filter f (filter f l) = filter f l.
Proof.
  induction l as [|x l IH]; cbn; [reflexivity|].
  destruct (f x) eqn:E; cbn; [rewrite E, IH|rewrite IH]; reflexivity.
Qed.

(** X12: Two [BotUttered] events with the same text are equal when their [data] and
    [metadata] dicts agree once the [None] values are removed. *)
Theorem bot_eq_ignores_none_values (text : ustr) (d1 d2 m1 m2 : pydict) (ts1 ts2 : jval) :
  filter (fun kv => negb (is_none (snd kv))) d1 = filter (fun kv => negb (is_none (snd kv))) d2 ->
  filter (fun kv => negb (is_none (snd kv))) m1 = filter (fun kv => negb (is_none (snd kv))) m2 ->
  event_eq (mkEvent (BotUttered (JStr text) (JDict d1)) ts1 (JDict m1))
           (mkEvent (BotUttered (JStr text) (JDict d2)) ts2 (JDict m2)) = Ok true.
Proof.
  intros Hd Hm; cbn -[filter]; rewrite Hd, Hm, ustr_eqb_refl, !ustr_eqb_refl; reflexivity.
Qed.

Lemma as_dict_prefix (e : event) :
  exists rest, as_dict e =
    (u "event", JStr (type_name (class_of (ev e)))) :: (u "timestamp", timestamp e) :: rest.
Proof.
  destruct e as [p ts md]; unfold as_dict, base_as_dict; cbn [ev metadata timestamp].
  destruct p, (py_truthy md); eexists; reflexivity.
Qed.

Lemma resolve_none_is_topic (v : jval) (default : option event_class) :
  resolve_by_type v default = Ok None <-> v = JStr (u "topic").
Proof.
  split; [|intros ->; reflexivity].
  unfold resolve_by_type.
  destruct (find _ all_subclasses); [discriminate|].
  destruct (py_eq v (JStr (u "topic"))) eqn:E.
  - intros _; destruct v; try discriminate E.
    cbn in E; apply ustr_eqb_eq in E; subst; reflexivity.
  - destruct default; discriminate.
Qed.

Ltac destruct_matches :=
  repeat match goal with
         | |- context [match ?x with _ => _ end] =>
             lazymatch x with
             | context [match _ with _ => _ end] => fail
             | _ => destruct x
             end
         end.

Lemma from_parameters_cls_some (c : event_class) (p : pydict) (s : env) :
  fst (from_parameters_cls c p s) <> Ok None.
Proof.
  destruct c; unfold from_parameters_cls, default_from_parameters, from_story_string_cls,
    single, new_UserUttered, new_BotUttered, new_SlotSet, new_ReminderScheduled,
    new_ReminderCancelled, new_StoryExported, new_FollowupAction, new_ActionExecuted,
    new_AgentUttered, new_Form, new_FormValidation, new_ActionExecutionRejected,
    new_Restarted, new_UserUtteranceReverted, new_AllSlotsReset,
    new_ActionReverted, new_ConversationPaused, new_ConversationResumed,
    mk_event, event_init, time_now, uuid_now, lift, bind, ret, raise;
    cbn -[py_get py_truthy py_attr_get dateutil_parse is_none];
    destruct_matches; discriminate.
Qed.

(** X6: [Event.from_parameters] gives no event exactly when the ["event"] tag is
    missing or [None], or is the legacy ["topic"]. *)
Theorem from_parameters_no_event_iff (p : pydict) (default : option event_class) (s : env) :
  fst (from_parameters p default s) = Ok None <->
  py_get p (u "event") = JNull \/ py_get p (u "event") = JStr (u "topic").
Proof.
  unfold from_parameters; split.
  - destruct (py_get p (u "event")) eqn:Ev; cbn [is_none];
      try (left; reflexivity);
      unfold bind, lift;
      destruct (resolve_by_type _ default) as [[c|]|x] eqn:R; cbn;
      try (intros H; exfalso; exact (from_parameters_cls_some c p s H));
      try discriminate;
      intros _; right; apply (resolve_none_is_topic _ default); exact R.
  - intros [H|H]; rewrite H; reflexivity.
Qed.

(** ... and in that case the state is left as it is. *)
Lemma from_parameters_no_event_state (p : pydict) (default : option event_class) (s : env) :
  py_get p (u "event") = JNull \/ py_get p (u "event") = JStr (u "topic") ->
  from_parameters p default s = (Ok None, s).
Proof. unfold from_parameters; intros [H|H]; rewrite H; reflexivity. Qed.

(** X8: The dict codec gives back the same event (all attributes, not only
    those [__eq__] looks at) for every variant but [UserUttered] and
    [ReminderScheduled], when the timestamp is truthy and the constructor
    invariants hold; nothing is read from the clock. The exception:
    [ReminderCancelled] and [StoryExported] keep the base [as_dict], so their
    [action_name] and [path] come back as [None]. *)
Theorem as_dict_decodes_to_same_event (e : event) (s : env) :
  ~ In (class_of (ev e)) [CUserUttered; CReminderScheduled] ->
  metadata_ok e -> payload_ok e -> py_truthy (timestamp e) = true ->
  from_parameters (as_dict e) None s =
  (Ok (Some (mkEvent (match ev e with
                      | ReminderCancelled _ => ReminderCancelled JNull
                      | StoryExported _ => StoryExported JNull
                      | p => p
                      end) (timestamp e) (metadata e))), s).
Proof.
  destruct e as [p ts md]; unfold metadata_ok, payload_ok; cbn [ev metadata timestamp].
  intros Hc Hmd Hp Hts.
  destruct p; cbn in Hc; try excluded_class Hc; cbn [ev] in Hp;
    destruct Hmd as [Hmd | ->];
    unfold from_parameters, as_dict, base_as_dict; cbn [ev metadata timestamp];
    try rewrite Hmd; cbn.
  all: unfold default_from_parameters, from_story_string_cls, single,
         new_BotUttered, new_SlotSet,
         new_ReminderCancelled, new_StoryExported, new_FollowupAction, new_ActionExecuted,
         new_AgentUttered, new_Form, new_FormValidation, new_ActionExecutionRejected,
         new_Restarted, new_UserUtteranceReverted, new_AllSlotsReset,
         new_ActionReverted, new_ConversationPaused, new_ConversationResumed,
         lift, bind, ret, raise.
  all: cbn -[mk_event].
  all: rewrite mk_event_spec, Hts; cbn.
  all: try rewrite (py_or_ok data) by exact Hp.
  all: try rewrite (py_or_ok md) by (left; exact Hmd).
  all: reflexivity.
Qed.

Lemma as_dict_has_event (e : event) : py_in (u "event") (as_dict e) = true.
Proof.
  destruct (as_dict_prefix e) as [rest ->]; reflexivity.
Qed.

(** Decoding the [as_dict] encodings of a list of events (constructor
    invariants holding, and [dateutil] reading back what [isoformat] writes)
    with [deserialise_events] gives one event per input, in order, each comparing
    with its original under [__eq__] as the original compares with itself. *)
Theorem deserialise_events_of_as_dicts
    (Hparse : forall t, exists t', parse_date (isoformat t) = Ok t')
    (es : list event) (s : env) :
  Forall (fun e => metadata_ok e /\ payload_ok e) es ->
  exists es' s', deserialise_events (map as_dict es) s = (Ok es', s') /\
    Forall2 (fun e e' => event_eq e e' = event_eq e e) es es'.
Proof.
  intros H; revert s; induction H as [|e es [Hm Hp] _ IH]; intros s.
  - exists [], s; split; [reflexivity|constructor].
  - cbn [map deserialise_events]; rewrite as_dict_has_event.
    destruct (dict_roundtrip Hparse e s Hm Hp) as (e' & s1 & Hd & Heq).
    destruct (IH s1) as (es' & s2 & Hr & Hf).
    exists (e' :: es'), s2; split.
    + unfold bind at 1; rewrite Hd; unfold bind; rewrite Hr; reflexivity.
    + constructor; assumption.
Qed.

(** X1: [deserialise_events] over a concatenation is the two decodings in sequence,
    stopping at the first exception. *)
Theorem deserialise_events_app (l1 l2 : list pydict) (s : env) :
  deserialise_events (l1 ++ l2) s =
  (r1 <- deserialise_events l1 ;; r2 <- deserialise_events l2 ;; ret (r1 ++ r2)) s.
Proof.
  revert s; induction l1 as [|e l1 IH]; intros s; cbn [app deserialise_events].
  - unfold bind, ret at 1; destruct (deserialise_events l2 s) as [[r|x] s']; reflexivity.
  - destruct (py_in (u "event") e); [|apply IH].
    unfold bind at 1 2 3 4.
    destruct (from_parameters e None s) as [[o|x] s1]; [|reflexivity].
    rewrite IH; unfold bind, ret.
    destruct (deserialise_events l1 s1) as [[r1|x] s2]; [|reflexivity].
    destruct (deserialise_events l2 s2) as [[r2|x] s3]; [|reflexivity].
    destruct o; reflexivity.
Qed.

(** X15: [ReminderScheduled(...)] with [name=None] names the reminder
    [str(uuid.uuid1())], reading the uuid source once; a name that is not
    [None] is kept and no uuid is drawn. So two reminders built one after the
    other without a name are equal only when the two uuids are. *)
Theorem reminder_default_name :
  (forall a t n k ts md s, exists e s',
     new_ReminderScheduled a t n k ts md s = (Ok e, s') /\
     ev e = ReminderScheduled a t (if is_none n then JStr (uuid1 (uuids s)) else n) k /\
     uuids s' = (if is_none n then S (uuids s) else uuids s)) /\
  (forall a1 t1 k1 a2 t2 k2 ts md s, exists e1 e2 s',
     (e1 <- new_ReminderScheduled a1 t1 JNull k1 ts md ;;
      e2 <- new_ReminderScheduled a2 t2 JNull k2 ts md ;; ret (e1, e2)) s = (Ok (e1, e2), s') /\
     event_eq e1 e2 = Ok (ustr_eqb (uuid1 (uuids s)) (uuid1 (S (uuids s))))).
Proof.
  split.
  - intros a t n k ts md s; unfold new_ReminderScheduled, bind at 1.
    destruct (is_none n); unfold uuid_now, ret, bind; cbn -[mk_event]; rewrite mk_event_spec;
      do 2 eexists; (split; [reflexivity|]); cbn; destruct (py_truthy ts); auto.
  - intros; unfold new_ReminderScheduled, bind, ret, uuid_now; cbn -[mk_event].
    rewrite mk_event_spec; cbn -[mk_event]; rewrite mk_event_spec; cbn.
    do 3 eexists; (split; [reflexivity|]); destruct (py_truthy ts); reflexivity.
Qed.

(** X16: A [ReminderScheduled] story line that gives only [action] and a parseable
    [date_time] is decoded with the defaults of [_from_story_string]:
    [kill_on_user_msg] is [True], the name is a fresh [uuid1()], the timestamp
    is read from the clock and the metadata is [{}]. A [date_time] that is not
    a string makes [parser.parse] raise [TypeError] before anything is read. *)
Theorem reminder_story_defaults (a : jval) (ds : ustr) (t : datetime) (s : env) :
  parse_date ds = Ok t ->
  from_story_string_cls CReminderScheduled [(u "action", a); (u "date_time", JStr ds)] s =
  (Ok (Some [mkEvent (ReminderScheduled a t (JStr (uuid1 (uuids s))) (JBool true))
               (JInt (time_time (clock s))) (JDict [])]),
   mkEnv (S (clock s)) (S (uuids s))) /\
  (forall v, (forall x, v <> JStr x) ->
     from_story_string_cls CReminderScheduled [(u "action", a); (u "date_time", v)] s =
     (Err TypeError, s)).
Proof.
  intros Hd; split.
  - unfold from_story_string_cls, single, new_ReminderScheduled, lift, bind, ret, uuid_now.
    cbn -[mk_event]; rewrite Hd; cbn -[mk_event]; rewrite mk_event_spec; reflexivity.
  - intros v Hv; unfold from_story_string_cls, lift, bind, raise; cbn -[dateutil_parse].
    destruct v; try reflexivity; exfalso; eapply Hv; reflexivity.
Qed.

Lemma vdict_set_single (k v w : jval) :
  py_hashable k = true ->
  vdict_set [] k v = Ok [(k, v)] /\ vdict_set [(k, w)] k v = Ok [(k, v)].
Proof.
  intros Hk; rewrite !vdict_set_hashable by exact Hk.
  rewrite py_eq_hashable_refl by exact Hk; split; reflexivity.
Qed.

Lemma fold_entities_err (ents : list jval) (x : exn) :
  fold_left
    (fun acc ent =>
       let? d := acc in
       let? k := py_subscript ent (u "entity") in
       let? v := py_subscript ent (u "value") in
       vdict_set d k v)
    ents (Err x) = Err x.
Proof. induction ents; cbn; auto. Qed.

(** X10: The entity dictionary of a [UserUttered] story line is a dict
    comprehension: when two entities share the same [entity], the later
    [value] wins and the earlier one leaves no trace. *)
Theorem user_story_last_entity_wins (text intent : jval) (d1 d2 : pydict) (k v1 v2 : jval) :
  py_truthy intent = true -> py_hashable k = true ->
  dict_lookup (u "entity") d1 = Some k -> dict_lookup (u "value") d1 = Some v1 ->
  dict_lookup (u "entity") d2 = Some k -> dict_lookup (u "value") d2 = Some v2 ->
  user_as_story_string false text intent (JList [JDict d1; JDict d2]) =
  user_as_story_string false text intent (JList [JDict d2]).
Proof.
  intros Hi Hk Hk1 Hv1 Hk2 Hv2; unfold user_as_story_string; rewrite Hi; cbn [py_truthy py_iter].
  cbn [fold_left rbind py_subscript]; rewrite Hk1, Hv1, Hk2, Hv2; cbn [rbind].
  destruct (vdict_set_single k v1 v1 Hk) as [-> _]; cbn [rbind].
  destruct (vdict_set_single k v2 v1 Hk) as [_ ->].
  destruct (vdict_set_single k v2 v1 Hk) as [-> _].
  reflexivity.
Qed.

(** X11: An entity without an [entity] or a [value] key makes
    [UserUttered.as_story_string] raise [KeyError] (with or without [e2e]),
    whatever the entities after it. *)
Theorem user_story_entity_key_error (e2e : bool) (text intent : jval) (d : pydict)
    (rest : list jval) :
  py_truthy intent = true ->
  dict_lookup (u "entity") d = None \/ dict_lookup (u "value") d = None ->
  user_as_story_string e2e text intent (JList (JDict d :: rest)) = Err KeyError.
Proof.
  intros Hi Hd; unfold user_as_story_string; rewrite Hi; cbn [py_truthy py_iter].
  cbn [fold_left rbind py_subscript].
  destruct Hd as [-> | Hv].
  - cbn [rbind]; rewrite fold_entities_err; reflexivity.
  - destruct (dict_lookup (u "entity") d); cbn [rbind];
      [rewrite Hv; cbn [rbind] |]; rewrite fold_entities_err; reflexivity.
Qed.

Lemma py_eq_str_any (a : ustr) (x : jval) :
  py_eq (JStr a) x = match x with JStr b => ustr_eqb a b | _ => false end.
Proof. destruct x; reflexivity. Qed.

Lemma vdict_set_str_ok (m : vdict) (k : ustr) (v : jval) :
  exists m', vdict_set m (JStr k) v = Ok m'.
Proof.
  induction m as [|[k' v'] m IH]; cbn [vdict_set]; [eexists; reflexivity|].
  destruct (py_eq (JStr k) k'); [eexists; reflexivity|].
  destruct IH as [m' ->]; eexists; reflexivity.
Qed.

Lemma vdict_get_set_str (m m' : vdict) (k k' : ustr) (v : jval) :
  vdict_set m (JStr k) v = Ok m' ->
  vdict_get m' (JStr k') = if ustr_eqb k' k then v else vdict_get m (JStr k').
Proof.
  revert m'; induction m as [|[k'' v''] m IH]; intros m' H; cbn [vdict_set] in H.
  - injection H as <-; cbn; destruct (ustr_eqb k' k); reflexivity.
  - rewrite py_eq_str_any in H.
    destruct (match k'' with JStr b => ustr_eqb k b | _ => false end) eqn:Ek.
    + injection H as <-; destruct k''; try discriminate Ek.
      apply ustr_eqb_eq in Ek; subst; cbn [vdict_get]; rewrite !py_eq_str_any.
      destruct (ustr_eqb k' s); reflexivity.
    + destruct (vdict_set m (JStr k) v) as [m0|] eqn:E0; [|discriminate].
      injection H as <-; cbn [vdict_get]; rewrite (IH m0 eq_refl), !py_eq_str_any.
      destruct (ustr_eqb k' k) eqn:E; [|reflexivity].
      apply ustr_eqb_eq in E; subst; rewrite Ek; reflexivity.
Qed.

Lemma dict_lookup_app {A} (k : ustr) (l1 l2 : list (ustr * A)) :
  dict_lookup k (l1 ++ l2) =
  match dict_lookup k l1 with Some v => Some v | None => dict_lookup k l2 end.
Proof.
  induction l1 as [|[k' v] l1 IH]; [reflexivity|]; cbn; destruct (ustr_eqb k k'); auto.
Qed.

Lemma vdict_update_dict_get (md : pydict) (m0 m : vdict) (k : ustr) :
  fold_left (fun acc kv => let? m := acc in vdict_set m (JStr (fst kv)) (snd kv))
    md (Ok m0) = Ok m ->
  vdict_get m (JStr k) =
  match dict_lookup k (rev md) with Some v => v | None => vdict_get m0 (JStr k) end.
Proof.
  revert m0; induction md as [|[a b] md IH]; intros m0 H.
  - injection H as <-; reflexivity.
  - cbn [fold_left rbind fst snd] in H.
    destruct (vdict_set_str_ok m0 a b) as [m1 E1]; rewrite E1 in H.
    rewrite (IH m1 H); cbn [rev]; rewrite dict_lookup_app.
    destruct (dict_lookup k (rev md)); [reflexivity|].
    rewrite (vdict_get_set_str _ _ _ _ _ E1); cbn; destruct (ustr_eqb k a); reflexivity.
Qed.

Lemma vdict_get_of_dict (d : pydict) (k : ustr) :
  vdict_get (map (fun kv => (JStr (fst kv), snd kv)) d) (JStr k) = py_get_default d k JNull.
Proof.
  unfold py_get_default; induction d as [|[k' v] d IH]; [reflexivity|].
  cbn [map vdict_get fst snd dict_lookup]; rewrite py_eq_str_any; destruct (ustr_eqb k k'); auto.
Qed.

(** X14: [BotUttered.message()] for dict [data] and [metadata]: every key other
    than [attachment] holds the last value [metadata] gives it, else the
    timestamp for [timestamp], the text for [text], else the value in [data]
    ([None] when absent). So [metadata] overrides [text] and [timestamp]. *)
Theorem bot_message_lookup (text ts : jval) (d md : pydict) (m : vdict) (k : ustr) :
  bot_message text (JDict d) ts (JDict md) = Ok m -> k <> u "attachment" ->
  vdict_get m (JStr k) =
  match dict_lookup k (rev md) with
  | Some v => v
  | None => if ustr_eqb k (u "timestamp") then ts
            else if ustr_eqb k (u "text") then text
            else py_get_default d k JNull
  end.
Proof.
  intros H Hk; unfold bot_message in H; cbn [rbind] in H.
  destruct (vdict_set_str_ok (map (fun kv => (JStr (fst kv), snd kv)) d) (u "text") text)
    as [m1 E1]; rewrite E1 in H; cbn [rbind] in H.
  destruct (vdict_set_str_ok m1 (u "timestamp") ts) as [m2 E2]; rewrite E2 in H;
    cbn [rbind] in H.
  unfold vdict_update in H.
  destruct (fold_left (fun acc kv => let? m := acc in vdict_set m (JStr (fst kv)) (snd kv))
              md (Ok m2)) as [m3|x] eqn:E3; cbn [rbind] in H; [|discriminate].
  assert (Hg : vdict_get m (JStr k) = vdict_get m3 (JStr k)).
  { destruct (py_eq _ _).
    - rewrite (vdict_get_set_str _ _ _ _ _ H).
      destruct (ustr_eqb k (u "attachment")) eqn:E; [|reflexivity].
      apply ustr_eqb_eq in E; contradiction.
    - injection H as <-; reflexivity. }
  rewrite Hg, (vdict_update_dict_get _ _ _ _ E3).
  destruct (dict_lookup k (rev md)); [reflexivity|].
  rewrite (vdict_get_set_str _ _ _ _ _ E2), (vdict_get_set_str _ _ _ _ _ E1), vdict_get_of_dict.
  reflexivity.
Qed.

End Events.


(** ** A concrete environment

    A clock starting at [1600000000], numbered uuids, one fixed date that
    [dateutil] parses back, and placeholder renderings for the library calls the
    claims below do not depend on. *)

Definition sample_clock (n : nat) : Z := (1600000000 + Z.of_nat n)%Z.
Definition sample_uuid (n : nat) : ustr := u "uuid-" ++ dec_N (N.of_nat n).
Definition sample_isoformat (_ : unit) : ustr := u "2020-01-01T00:00:00".
Definition sample_parse (_ : ustr) : result unit := Ok tt.
Definition sample_str (_ : jval) : ustr := u "<object>".
Definition sample_pickle : jval -> ustr := json_dumps true.
Definition sample_format (_ _ _ : jval) : result ustr := Ok [].
Definition sample_env : env := mkEnv 0 0.

Arguments mkEvent {datetime}.
Arguments ev {datetime}.
Arguments UserUttered {datetime}.
Arguments BotUttered {datetime}.
Arguments SlotSet {datetime}.
Arguments FollowupAction {datetime}.
Arguments ReminderCancelled {datetime}.

Definition sample_from_parameters :=
  from_parameters sample_clock sample_uuid unit sample_parse sample_str.
Definition sample_deserialise :=
  deserialise_events sample_clock sample_uuid unit sample_parse sample_str.
Definition sample_as_dict := as_dict unit sample_isoformat.
Definition sample_eq := event_eq unit sample_pickle.
Definition sample_story := as_story_string unit sample_isoformat sample_str sample_format.

(** The batch of the spec: a slot, an unknown tag, a slot. *)
Definition spec_batch : list pydict :=
  [[(u "event", JStr (u "slot")); (u "name", JStr (u "a")); (u "value", JInt 1)];
   [(u "event", JStr (u "bogus"))];
   [(u "event", JStr (u "slot")); (u "name", JStr (u "b")); (u "value", JInt 2)]].

(** [UserUttered("hi", {"name": "greet"}, [], {"text": "hi"})]: a [parse_data]
    given by the caller that does not repeat the intent. *)
Definition greet_parse_data : jval := JDict [(u "text", JStr (u "hi"))].

Definition greet_event : event unit :=
  mkEvent (UserUttered (JStr (u "hi")) (JDict [(u "name", JStr (u "greet"))]) (JList [])
             greet_parse_data JNull JNull)
          (JInt 1600000000) (JDict []).

(** ["cafe"] with an acute accent on the [e], as Python text. *)
Definition cafe : ustr := u "caf" ++ [233%N].

(** Samples for the functions the claims do not cover: a [json.loads] that
    gives [[]], simple hashes, and a few dicts. *)

Definition sample_loads (_ : ustr) : result jval := Ok (JList []).

Definition sample_str_hash (s : ustr) : Z := Z.of_nat (List.length s).

Definition sample_tuple_hash (l : list Z) : Z := fold_left Z.add l 0%Z.

Definition two_keys : pydict := [(u "a", JInt 1); (u "b", JInt 2)].

Definition two_events : list (event unit) :=
  [mkEvent (SlotSet (JStr (u "a")) (JInt 1)) (JInt 5) (JDict []);
   mkEvent (@Form unit (JStr (u "f"))) (JInt 6) (JDict [(u "k", JInt 1)])].

Definition greet_intent : jval := JDict [(u "name", JStr (u "greet"))].

Definition soup : pydict := [(u "entity", JStr (u "dish")); (u "value", JStr (u "soup"))].

Definition cake : pydict := [(u "entity", JStr (u "dish")); (u "value", JStr (u "cake"))].

(** C1 *)

(** Counterexample to C1: the spec's batch raises [ValueError("Unknown event
    name 'bogus'.")] instead of giving the two [SlotSet] events. *)
Lemma spec_batch_aborts :
  fst (sample_deserialise spec_batch sample_env) =
  Err (ValueError (u "Unknown event name 'bogus'.")).
Proof. vm_compute; reflexivity. Qed.

(** C2 *)

(** Instance of C2's theorem: a [SlotSet] event round-trips through both codecs
    in the concrete environment. *)
Lemma codec_round_trip_witness :
  metadata_ok unit (mkEvent (SlotSet (JStr (u "a")) (JInt 1)) (JInt 5) (JDict [])) /\
  payload_ok unit (mkEvent (SlotSet (JStr (u "a")) (JInt 1)) (JInt 5) (JDict [])) /\
  story_line_ok sample_clock sample_uuid unit sample_isoformat sample_parse sample_pickle
    sample_str sample_format (mkEvent (SlotSet (JStr (u "a")) (JInt 1)) (JInt 5) (JDict [])).
Proof.
  split; [right; reflexivity|split; [exact I|]].
  apply (codec_round_trip_under_invariants sample_clock sample_uuid unit sample_isoformat
           sample_parse sample_pickle sample_str sample_format).
  - intros t; exists tt; reflexivity.
  - exact I.
Defined.

(** Counterexample to C2: [greet_event], as built by [UserUttered(...)], decodes
    from its [as_dict] with intent [{}]: the two are not equal, while the event
    is equal to itself. *)
Lemma greet_event_round_trip_differs :
  fst (new_UserUttered sample_clock unit (JStr (u "hi"))
         (JDict [(u "name", JStr (u "greet"))]) (JList []) greet_parse_data JNull JNull
         JNull JNull sample_env) = Ok greet_event /\
  sample_eq greet_event greet_event = Ok true /\
  exists e', fst (sample_from_parameters (sample_as_dict greet_event) None sample_env)
               = Ok (Some e') /\
    sample_eq greet_event e' = Ok false.
Proof.
  split; [vm_compute; reflexivity|split; [vm_compute; reflexivity|]].
  eexists; split; [vm_compute; reflexivity|vm_compute; reflexivity].
Qed.

(** C3 *)

Definition bogus_tag : ustr := u "not_a_real_tag".

(** Instance of C3's theorem at [{"event": "not_a_real_tag"}]. *)
Lemma unknown_tag_witness :
  ~ In bogus_tag (map type_name all_subclasses) /\ bogus_tag <> u "topic" /\
  sample_from_parameters [(u "event", JStr bogus_tag)] None sample_env =
  (Err (ValueError (unknown_event_msg sample_str (JStr bogus_tag))), sample_env).
Proof.
  assert (Hin : ~ In bogus_tag (map type_name all_subclasses)).
  { intros H; vm_compute in H; repeat destruct H as [H|H]; try discriminate H; exact H. }
  assert (Ht : bogus_tag <> u "topic") by (intros H; vm_compute in H; discriminate H).
  split; [exact Hin|split; [exact Ht|]].
  apply (unknown_tag_raises_or_uses_fallback sample_clock sample_uuid unit sample_parse
           sample_str bogus_tag [(u "event", JStr bogus_tag)] sample_env Hin Ht).
  reflexivity.
Defined.

(** Counterexample to C3: with the fallback [UserUttered] (or [ReminderScheduled])
    decoding [{"event": "not_a_real_tag"}] fails with [AttributeError] (or
    [TypeError]) instead of returning an instance of the fallback. *)
Lemma unknown_tag_fallback_fails :
  sample_from_parameters [(u "event", JStr bogus_tag)] (Some CUserUttered) sample_env =
  (Err AttributeError, sample_env) /\
  sample_from_parameters [(u "event", JStr bogus_tag)] (Some CReminderScheduled) sample_env =
  (Err TypeError, sample_env).
Proof. split; vm_compute; reflexivity. Qed.

(** C4 *)

(** Counterexample to C4: a [UserUttered] and a [BotUttered] whose metadata is
    empty still carry ["metadata": {}] in their [as_dict]. *)
Lemma empty_metadata_kept :
  py_truthy (metadata unit greet_event) = false /\
  dict_lookup (u "metadata") (sample_as_dict greet_event) = Some (JDict []) /\
  dict_lookup (u "metadata")
    (sample_as_dict (mkEvent (BotUttered (JStr (u "hello")) (JDict [])) (JInt 1) (JDict [])))
  = Some (JDict []).
Proof. vm_compute; repeat split. Qed.

(** C8 *)

(** Counterexample to C8: the story line of [FollowupAction(cafe)] writes the
    [e] with acute accent (code point 233) as [\u00e9]; a [SlotSet] keeps it. *)
Lemma followup_story_escapes_non_ascii :
  sample_story (mkEvent (FollowupAction (JStr cafe)) (JInt 1) (JDict [])) =
  Ok (JStr (u "followup{" ++ [34%N] ++ u "name" ++ [34%N] ++ u ": " ++ [34%N] ++
            u "caf\u00e9" ++ [34%N] ++ u "}")) /\
  sample_story (mkEvent (SlotSet (JStr (u "dish")) (JStr cafe)) (JInt 1) (JDict [])) =
  Ok (JStr (u "slot{" ++ [34%N] ++ u "dish" ++ [34%N] ++ u ": " ++ [34%N] ++
            cafe ++ [34%N] ++ u "}")).
Proof. split; vm_compute; reflexivity. Qed.

(** ** Instances of the properties of the remaining functions *)

(** [first_key({"a": 1, "b": 2}, "a")] is ["b"]. *)
Lemma first_key_result_witness :
  NoDup (map fst two_keys) /\ first_key two_keys (u "a") = Some (u "b") /\
  In (u "b") (map fst two_keys).
Proof.
  assert (Hnd : NoDup (map fst two_keys)).
  { constructor.
    - intros [H|H]; [vm_compute in H; discriminate H | exact H].
    - constructor; [intros []|constructor]. }
  split; [exact Hnd|split; [reflexivity|]].
  exact (proj1 (proj2 (first_key_result two_keys (u "a") Hnd) (u "b") eq_refl)).
Defined.

(** [deserialise_entities] keeps the dict of [[{"entity": "x"}, 3]]. *)
Lemma deserialise_entities_witness :
  deserialise_entities sample_loads (JList [JDict [(u "entity", JStr (u "x"))]; JInt 3]) =
  Ok [JDict [(u "entity", JStr (u "x"))]] /\
  Forall (fun x => is_dict x = true) [JDict [(u "entity", JStr (u "x"))]].
Proof.
  split; [exact (proj1 (deserialise_entities_keeps_dicts sample_loads) _)|].
  exact (proj1 (proj1 (proj2 (deserialise_entities_keeps_dicts sample_loads))
                  (JList [JDict [(u "entity", JStr (u "x"))]; JInt 3]) _ eq_refl)).
Defined.

(** A bot message whose metadata repeats the image as attachment. *)
Lemma bot_message_attachment_witness :
  exists m, bot_message (JStr (u "hi")) (JDict [(u "image", JStr (u "x"))]) (JInt 1)
              (JDict [(u "attachment", JStr (u "x"))]) = Ok m /\
    (py_eq (vdict_get m (JStr (u "image"))) (vdict_get m (JStr (u "attachment"))) = false \/
     vdict_get m (JStr (u "attachment")) = JNull).
Proof.
  eexists; split; [vm_compute; reflexivity|].
  apply (bot_message_attachment_not_image (JStr (u "hi")) (JDict [(u "image", JStr (u "x"))])
           (JInt 1) (JDict [(u "attachment", JStr (u "x"))])).
  vm_compute; reflexivity.
Defined.

(** Two [Form("f")] events with different timestamps. *)
Lemma equal_events_equal_hashes_witness :
  event_eq unit sample_pickle (mkEvent (@Form unit (JStr (u "f"))) (JInt 1) (JDict []))
    (mkEvent (@Form unit (JStr (u "f"))) (JInt 2) (JDict [])) = Ok true /\
  event_hash unit sample_isoformat sample_pickle sample_str_hash 0%Z sample_tuple_hash
    (mkEvent (@Form unit (JStr (u "f"))) (JInt 1) (JDict [])) =
  event_hash unit sample_isoformat sample_pickle sample_str_hash 0%Z sample_tuple_hash
    (mkEvent (@Form unit (JStr (u "f"))) (JInt 2) (JDict [])).
Proof.
  assert (Hc : ~ In CForm
                 [CUserUttered; CSlotSet; CReminderScheduled; CReminderCancelled;
                  CFormValidation]).
  { intros H; repeat destruct H as [H|H]; try discriminate H; exact H. }
  split; [reflexivity|].
  exact (equal_events_equal_hashes unit sample_isoformat sample_pickle sample_str_hash 0%Z
           sample_tuple_hash (mkEvent (@Form unit (JStr (u "f"))) (JInt 1) (JDict []))
           (mkEvent (@Form unit (JStr (u "f"))) (JInt 2) (JDict [])) Hc eq_refl).
Defined.

(** A [BotUttered] with a [None] data value equals one without that key. *)
Lemma bot_eq_ignores_none_values_witness :
  event_eq unit sample_pickle
    (mkEvent (BotUttered (JStr (u "hi")) (JDict [(u "a", JNull); (u "b", JInt 1)])) (JInt 1)
       (JDict []))
    (mkEvent (BotUttered (JStr (u "hi")) (JDict [(u "b", JInt 1)])) (JInt 2)
       (JDict [(u "x", JNull)])) = Ok true.
Proof.
  apply (bot_eq_ignores_none_values unit sample_pickle (u "hi")
           [(u "a", JNull); (u "b", JInt 1)] [(u "b", JInt 1)] [] [(u "x", JNull)]);
    reflexivity.
Defined.

(** [ReminderCancelled("r")] comes back from its [as_dict] without its action. *)
Lemma as_dict_decodes_to_same_event_witness :
  sample_from_parameters
    (sample_as_dict (mkEvent (ReminderCancelled (JStr (u "r"))) (JInt 5) (JDict []))) None
    sample_env =
  (Ok (Some (mkEvent (ReminderCancelled JNull) (JInt 5) (JDict []))), sample_env).
Proof.
  assert (Hc : ~ In CReminderCancelled [CUserUttered; CReminderScheduled]).
  { intros H; repeat destruct H as [H|H]; try discriminate H; exact H. }
  exact (as_dict_decodes_to_same_event sample_clock sample_uuid unit sample_isoformat
           sample_parse sample_str
           (mkEvent (ReminderCancelled (JStr (u "r"))) (JInt 5) (JDict [])) sample_env Hc
           (or_intror eq_refl) I eq_refl).
Defined.

(** The [as_dict] encodings of a [SlotSet] and a [Form] decode back. *)
Lemma deserialise_events_of_as_dicts_witness :
  exists es' s', sample_deserialise (map sample_as_dict two_events) sample_env = (Ok es', s') /\
    Forall2 (fun e e' => sample_eq e e' = sample_eq e e) two_events es'.
Proof.
  apply (deserialise_events_of_as_dicts sample_clock sample_uuid unit sample_isoformat
           sample_parse sample_pickle sample_str).
  - intros t; exists tt; reflexivity.
  - constructor; [split; [right; reflexivity|exact I]|].
    constructor; [split; [left; reflexivity|exact I]|constructor].
Defined.

(** [reminder{"action": "ping", "date_time": "2020"}] at the start of the run. *)
Lemma reminder_story_defaults_witness :
  sample_parse (u "2020") = Ok tt /\
  from_story_string_cls sample_clock sample_uuid unit sample_parse CReminderScheduled
    [(u "action", JStr (u "ping")); (u "date_time", JStr (u "2020"))] sample_env =
  (Ok (Some [mkEvent (@ReminderScheduled unit (JStr (u "ping")) tt (JStr (sample_uuid 0))
                        (JBool true)) (JInt (sample_clock 0)) (JDict [])]),
   mkEnv 1 1).
Proof.
  split; [reflexivity|].
  exact (proj1 (reminder_story_defaults sample_clock sample_uuid unit sample_parse
                  (JStr (u "ping")) (u "2020") tt sample_env eq_refl)).
Defined.

(** Two [dish] entities: only [cake] is written. *)
Lemma user_story_last_entity_wins_witness :
  user_as_story_string sample_str sample_format false (JStr (u "hi")) greet_intent
    (JList [JDict soup; JDict cake]) =
  user_as_story_string sample_str sample_format false (JStr (u "hi")) greet_intent
    (JList [JDict cake]).
Proof.
  apply (user_story_last_entity_wins sample_str sample_format (JStr (u "hi")) greet_intent
           soup cake (JStr (u "dish")) (JStr (u "soup")) (JStr (u "cake")));
    reflexivity.
Defined.

(** An entity [{"entity": "dish"}] without a value. *)
Lemma user_story_entity_key_error_witness :
  user_as_story_string sample_str sample_format true (JStr (u "hi")) greet_intent
    (JList [JDict [(u "entity", JStr (u "dish"))]; JDict cake]) = Err KeyError.
Proof.
  apply (user_story_entity_key_error sample_str sample_format true (JStr (u "hi")) greet_intent
           [(u "entity", JStr (u "dish"))] [JDict cake]);
    [reflexivity|right; reflexivity].
Defined.

(** The metadata's [text] replaces the [text] of the data and of the event. *)
Lemma bot_message_lookup_witness :
  exists m, bot_message (JStr (u "hi")) (JDict [(u "text", JStr (u "old"))]) (JInt 1)
              (JDict [(u "text", JStr (u "new"))]) = Ok m /\
    vdict_get m (JStr (u "text")) = JStr (u "new").
Proof.
  eexists; split; [vm_compute; reflexivity|].
  refine (eq_trans (bot_message_lookup (JStr (u "hi")) (JInt 1) [(u "text", JStr (u "old"))]
                      [(u "text", JStr (u "new"))] _ (u "text") _ _) _).
  - vm_compute; reflexivity.
  - intros H; vm_compute in H; discriminate H.
  - reflexivity.
Defined.
